(** * wg-portal: session store, credential verifier and connection orchestrator

    A shallow embedding of [internal/auth.go] (password hashing and the
    in-memory session manager) and of the WireGuard connection code
    ([GetStatus], [GetConnections], [ToggleConnection] and their helpers),
    followed by the properties stated about them.

    Conventions.
    - Go's [[]byte] is [list byte]; Go's [string] is [string]; the
      conversions [string(b)] and [[]byte(s)] are [string_of_list_byte] and
      [list_byte_of_string].
    - A Go function returning [(T, error)] whose error paths all return the
      zero value of [T] is a function into [result T]; [exec.Cmd.Output] and
      [exec.Cmd.CombinedOutput], which return bytes together with an error,
      keep the pair.
    - [time.Time] is a number of nanoseconds ([Z]); [time.Hour] is
      [3600 * 10^9].
    - The session map [map[string]*Session] is a [gmap string Session];
      sessions are never mutated after they are stored.
    - The host (the [wg] and [wg-quick] programs and the directory
      [/etc/wireguard]) is a parameter: a world type with a command runner
      and a glob function.  Every [exec.Command] that is run is appended to
      an invocation log. *)

From Stdlib Require Import ZArith String Ascii Strings.Byte List Lia Bool.
From stdpp Require Import gmap strings fin_maps.
Import ListNotations.

Local Open Scope string_scope.
Local Open Scope Z_scope.

(** ** Bytes and hexadecimal text *)

Definition Z_of_byte (b : byte) : Z := Z.of_N (Byte.to_N b).

Definition byte_of_Z (z : Z) : byte :=
  match Byte.of_N (Z.to_N (z mod 256)) with
  | Some b => b
  | None => x00
  end.

Definition hextable : string := "0123456789abcdef".

Definition hexdigit (z : Z) : ascii :=
  match String.get (Z.to_nat z) hextable with
  | Some c => c
  | None => "0"%char
  end.

(** [hex.EncodeToString]: two lower-case digits per byte, high nibble first. *)
Fixpoint EncodeToString (src : list byte) : string :=
  match src with
  | [] => EmptyString
  | b :: rest =>
      String (hexdigit (Z.shiftr (Z_of_byte b) 4))
        (String (hexdigit (Z.land (Z_of_byte b) 15)) (EncodeToString rest))
  end.

(** ** SHA-256 ([crypto/sha256.Sum256], FIPS 180-4) on 32-bit words held in [Z] *)

Module SHA256.

Definition u32 (x : Z) : Z := x mod 4294967296.

Definition add32 (x y : Z) : Z := u32 (x + y).

Definition rotr (n x : Z) : Z :=
  u32 (Z.lor (Z.shiftr x n) (Z.shiftl x (32 - n))).

Definition Ch (x y z : Z) : Z :=
  Z.lxor (Z.land x y) (Z.land (u32 (Z.lnot x)) z).

Definition Maj (x y z : Z) : Z :=
  Z.lxor (Z.lxor (Z.land x y) (Z.land x z)) (Z.land y z).

Definition bsig0 (x : Z) : Z := Z.lxor (Z.lxor (rotr 2 x) (rotr 13 x)) (rotr 22 x).
Definition bsig1 (x : Z) : Z := Z.lxor (Z.lxor (rotr 6 x) (rotr 11 x)) (rotr 25 x).
Definition ssig0 (x : Z) : Z := Z.lxor (Z.lxor (rotr 7 x) (rotr 18 x)) (Z.shiftr x 3).
Definition ssig1 (x : Z) : Z := Z.lxor (Z.lxor (rotr 17 x) (rotr 19 x)) (Z.shiftr x 10).

(** The constants of the standard are the first 32 bits of the fractional
    parts of the cube roots ([K]) and of the square roots ([init]) of the
    first primes. *)
Definition is_prime (n : Z) : bool :=
  forallb (fun d => negb (n mod Z.of_nat d =? 0)) (seq 2 (Z.to_nat n - 2)).

Definition primes : list Z :=
  Eval vm_compute in List.filter is_prime (map Z.of_nat (seq 2 310)).

(** The integer cube root of [n] below [2^bits], one bit at a time. *)
Fixpoint icbrt (bits : nat) (n r : Z) : Z :=
  match bits with
  | O => r
  | S b =>
      let r' := r + Z.shiftl 1 (Z.of_nat b) in
      icbrt b n (if r' * r' * r' <=? n then r' else r)
  end.

Definition K : list Z :=
  Eval vm_compute in map (fun p => u32 (icbrt 36 (p * 2 ^ 96) 0)) primes.

Definition init : list Z :=
  Eval vm_compute in map (fun p => u32 (Z.sqrt (p * 2 ^ 64))) (firstn 8 primes).

(** Big-endian encoding of [x] on [n] bytes. *)
Fixpoint be_bytes (n : nat) (x : Z) : list Z :=
  match n with
  | O => []
  | S m => Z.land (Z.shiftr x (8 * Z.of_nat m)) 255 :: be_bytes m x
  end.

(** Message padding: a 1 bit, zeros up to 56 mod 64 bytes, the bit length
    on 8 bytes. *)
Definition pad (msg : list Z) : list Z :=
  let len := Z.of_nat (length msg) in
  let zeros := Z.to_nat ((55 - len) mod 64) in
  msg ++ 128 :: repeat 0 zeros ++ be_bytes 8 (8 * len).

Fixpoint words (fuel : nat) (bs : list Z) : list Z :=
  match fuel, bs with
  | S f, b0 :: b1 :: b2 :: b3 :: rest =>
      (((b0 * 256 + b1) * 256 + b2) * 256 + b3) :: words f rest
  | _, _ => []
  end.

Fixpoint blocks (fuel : nat) (ws : list Z) : list (list Z) :=
  match fuel, ws with
  | S f, _ :: _ => firstn 16 ws :: blocks f (skipn 16 ws)
  | _, _ => []
  end.

(** The message schedule, built newest word first: [acc] holds
    [W(t-1), W(t-2), ...]. *)
Fixpoint extend (n : nat) (acc : list Z) : list Z :=
  match n with
  | O => acc
  | S m =>
      let w := add32 (add32 (ssig1 (nth 1 acc 0)) (nth 6 acc 0))
                     (add32 (ssig0 (nth 14 acc 0)) (nth 15 acc 0)) in
      extend m (w :: acc)
  end.

Definition schedule (block : list Z) : list Z := rev (extend 48 (rev block)).

Definition round (st : list Z) (kw : Z * Z) : list Z :=
  match st with
  | [a; b; c; d; e; f; g; h] =>
      let t1 := add32 (add32 (add32 h (bsig1 e)) (add32 (Ch e f g) (fst kw))) (snd kw) in
      let t2 := add32 (bsig0 a) (Maj a b c) in
      [add32 t1 t2; a; b; c; add32 d t1; e; f; g]
  | _ => st
  end.

Definition zip_add (xs ys : list Z) : list Z :=
  map (fun p : Z * Z => add32 (fst p) (snd p)) (combine xs ys).

Definition compress (st block : list Z) : list Z :=
  zip_add st (fold_left round (combine K (schedule block)) st).

Definition Sum256 (data : list byte) : list byte :=
  let padded := pad (map Z_of_byte data) in
  let ws := words (length padded) padded in
  let st := fold_left compress (blocks (length ws) ws) init in
  map byte_of_Z (flat_map (be_bytes 4) st).

End SHA256.

(** ** Errors and results *)

(** Go [error] values.  [External] is an error produced outside this
    program ([os/exec], [crypto/rand], [path/filepath]), known by its text;
    [Wrapped context cause] is [fmt.Errorf(context + ": %w", cause)];
    [Message] is [fmt.Errorf] without a wrapped cause. *)
Inductive error : Type :=
| External (msg : string)
| Wrapped (context : string) (cause : error)
| Message (msg : string).

(** The [Error()] method. *)
Fixpoint Error (e : error) : string :=
  match e with
  | External msg => msg
  | Wrapped context cause => context ++ ": " ++ Error cause
  | Message msg => msg
  end.

Inductive result (T : Type) : Type :=
| Ok (v : T)
| Err (e : error).
Arguments Ok {T} v.
Arguments Err {T} e.

(** ** A state monad for the code that threads a store or a host *)

Definition State (S A : Type) : Type := S -> A * S.

Definition ret {S A : Type} (a : A) : State S A := fun s => (a, s).

Definition bind {S A B : Type} (m : State S A) (k : A -> State S B) : State S B :=
  fun s => let (a, s') := m s in k a s'.

Definition get {S : Type} : State S S := fun s => (s, s).

Definition modify {S : Type} (f : S -> S) : State S unit := fun s => (tt, f s).

(** [v, err := m; if err != nil { return zero, err }; k v] *)
Definition bind_ok {S A B : Type} (m : State S (result A)) (k : A -> State S (result B))
  : State S (result B) :=
  bind m (fun r => match r with Ok v => k v | Err e => ret (Err e) end).

Declare Scope go_scope.
Delimit Scope go_scope with go.
Notation "x <- m ;; k" := (bind m (fun x => k))
  (at level 100, m at next level, right associativity) : go_scope.
Notation "x <-? m ;; k" := (bind_ok m (fun x => k))
  (at level 100, m at next level, right associativity) : go_scope.
Local Open Scope go_scope.

(** ** Text functions of the Go library used by the code *)

Definition LF : ascii := "010"%char.

Definition chars (s : string) : list ascii := list_ascii_of_string s.
Definition text (l : list ascii) : string := string_of_list_ascii l.

Definition string_drop (n : nat) (s : string) : string :=
  String.substring n (String.length s - n) s.

(** [strings.HasPrefix], [strings.HasSuffix]. *)
Definition HasPrefix (s p : string) : bool := String.prefix p s.

Definition HasSuffix (s p : string) : bool :=
  String.prefix (text (rev (chars p))) (text (rev (chars s))).

(** [strings.TrimPrefix], [strings.TrimSuffix]. *)
Definition TrimPrefix (s p : string) : string :=
  if HasPrefix s p then string_drop (String.length p) s else s.

Definition TrimSuffix (s p : string) : string :=
  if HasSuffix s p then String.substring 0 (String.length s - String.length p) s else s.

(** [strings.Contains]. *)
Fixpoint Contains (s substr : string) : bool :=
  String.prefix substr s ||
  match s with
  | EmptyString => false
  | String _ s' => Contains s' substr
  end.

(** [strings.Split(s, sep)] and [strings.SplitSeq(s, sep)] for a one-byte
    separator: the pieces between the separators, always at least one. *)
Fixpoint Split (s : string) (sep : ascii) : list string :=
  match s with
  | EmptyString => [EmptyString]
  | String c s' =>
      if Ascii.eqb c sep then EmptyString :: Split s' sep
      else match Split s' sep with
           | piece :: pieces => String c piece :: pieces
           | [] => [String c EmptyString]
           end
  end.

(** [strings.Join]. *)
Definition Join (elems : list string) (sep : string) : string := String.concat sep elems.

(** The UTF-8 encodings of the code points for which [unicode.IsSpace]
    holds: tab, LF, VT, FF, CR, space, U+0085, U+00A0, U+1680,
    U+2000..U+200A, U+2028, U+2029, U+202F, U+205F, U+3000. *)
Definition unicodeSpaces : list string :=
  map string_of_list_byte
    [ [x09]; [x0a]; [x0b]; [x0c]; [x0d]; [x20]; [xc2; x85]; [xc2; xa0];
      [xe1; x9a; x80];
      [xe2; x80; x80]; [xe2; x80; x81]; [xe2; x80; x82]; [xe2; x80; x83];
      [xe2; x80; x84]; [xe2; x80; x85]; [xe2; x80; x86]; [xe2; x80; x87];
      [xe2; x80; x88]; [xe2; x80; x89]; [xe2; x80; x8a];
      [xe2; x80; xa8]; [xe2; x80; xa9]; [xe2; x80; xaf]; [xe2; x81; x9f];
      [xe3; x80; x80] ].

Fixpoint trimLeftSpace (fuel : nat) (s : string) : string :=
  match fuel with
  | O => s
  | S f =>
      match List.find (fun sp => HasPrefix s sp) unicodeSpaces with
      | Some sp => trimLeftSpace f (string_drop (String.length sp) s)
      | None => s
      end
  end.

Fixpoint trimRightSpace (fuel : nat) (s : string) : string :=
  match fuel with
  | O => s
  | S f =>
      match List.find (fun sp => HasSuffix s sp) unicodeSpaces with
      | Some sp => trimRightSpace f (String.substring 0 (String.length s - String.length sp) s)
      | None => s
      end
  end.

(** [strings.TrimSpace]: leading and trailing white space removed. *)
Definition TrimSpace (s : string) : string :=
  let s1 := trimLeftSpace (String.length s) s in
  trimRightSpace (String.length s1) s1.

(** [filepath.Ext]: the suffix from the last dot of the last path element. *)
Fixpoint extFrom (rpath : list ascii) (acc : list ascii) : string :=
  match rpath with
  | [] => EmptyString
  | c :: rest =>
      if Ascii.eqb c "/" then EmptyString
      else if Ascii.eqb c "." then text (c :: acc)
      else extFrom rest (c :: acc)
  end.

Definition Ext (path : string) : string := extFrom (rev (chars path)) [].

Fixpoint dropWhile {A : Type} (p : A -> bool) (l : list A) : list A :=
  match l with
  | [] => []
  | x :: rest => if p x then dropWhile p rest else l
  end.

Fixpoint takeWhile {A : Type} (p : A -> bool) (l : list A) : list A :=
  match l with
  | [] => []
  | x :: rest => if p x then x :: takeWhile p rest else []
  end.

Definition isPathSeparator (c : ascii) : bool := Ascii.eqb c "/".

(** [filepath.Base] (Unix): the last element of the path. *)
Definition Base (path : string) : string :=
  if String.eqb path "" then "."
  else
    let stripped := dropWhile isPathSeparator (rev (chars path)) in
    let last := rev (takeWhile (fun c => negb (isPathSeparator c)) stripped) in
    if String.eqb (text last) "" then "/" else text last.

(** ** internal/auth.go: credential verifier *)

(** [GeneratePasswordHash]: the double SHA-256 digest of the password. *)
Definition GeneratePasswordHash (password : string) : string :=
  let first := SHA256.Sum256 (list_byte_of_string password) in
  let firstHex := EncodeToString first in
  let second := SHA256.Sum256 (list_byte_of_string firstHex) in
  EncodeToString second.

Definition ValidatePassword (password hash : string) : bool :=
  String.eqb (GeneratePasswordHash password) hash.

(** The two-round digest as the specification words it, for an arbitrary
    digest function [H]: [hex(H(hex(H(p))))]. *)
Definition two_round_digest (H : list byte -> list byte) (p : string) : string :=
  EncodeToString (H (list_byte_of_string (EncodeToString (H (list_byte_of_string p))))).

(** ** internal/auth.go: session manager *)

Record Session : Type := { Expires : Z }.

(** The [sessions] field; the [mutex] field has no sequential content. *)
Record SessionManager : Type := { sessions : gmap string Session }.

Definition Hour : Z := 3600 * 1000000000.

(** [t.After(u)]. *)
Definition After (t u : Z) : bool := u <? t.

Definition NewSessionManager : SessionManager := {| sessions := ∅ |}.

(** [generateSecureToken]; [rnd] is the outcome of [rand.Read] on the
    32-byte buffer: the filled buffer, or the error.  The [Err] case is
    the source's [if err != nil] branch.  The code needs Go 1.24 or later
    (it calls [strings.SplitSeq]), where [crypto/rand.Read] always fills
    the buffer and never returns an error, so a running server only ever
    supplies [Ok]; the properties of tokens and sessions below are stated
    on [Ok] buffers. *)
Definition generateSecureToken (rnd : result (list byte)) : result string :=
  match rnd with
  | Err err => Err err
  | Ok bytes => Ok (EncodeToString bytes)
  end.

(** [CreateSession]; [now] is the reading of [time.Now()]. *)
Definition CreateSession (rnd : result (list byte)) (now : Z)
  : State SessionManager (result (string * Z)) :=
  match generateSecureToken rnd with
  | Err err => ret (Err (Wrapped "failed to generate session ID" err))
  | Ok sessionID =>
      let expires := now + 1 * Hour in
      _ <- modify (fun sm => {| sessions := <[sessionID := {| Expires := expires |}]> (sessions sm) |}) ;;
      ret (Ok (sessionID, expires))
  end.

Definition ValidateSession (now : Z) (sessionID : string)
  : State SessionManager (option Session * bool) :=
  sm <- get ;;
  match sessions sm !! sessionID with
  | None => ret (None, false)
  | Some session =>
      if After now (Expires session) then ret (None, false)
      else ret (Some session, true)
  end.

Definition DeleteSession (sessionID : string) : State SessionManager unit :=
  modify (fun sm => {| sessions := delete sessionID (sessions sm) |}).

(** One tick of the loop of [cleanupExpiredSessions]: every session whose
    expiry is before [now] is deleted. *)
Definition cleanupExpiredSessions_tick (now : Z) : State SessionManager unit :=
  modify (fun sm =>
    {| sessions := filter (fun kv : string * Session => After now (Expires kv.2) = false)
                          (sessions sm) |}).

(** ** The host: command runner and file system *)

(** Which streams an [exec.Cmd] call captures: [Output] returns standard
    output, [CombinedOutput] standard output and standard error. *)
Inductive capture : Type := StdoutOnly | StdoutAndStderr.

Record Host (World : Type) : Type := {
  (** Run [argv] to completion: the captured bytes and the error, if any. *)
  run : capture -> list string -> World -> (list byte * option error) * World;
  (** [filepath.Glob]. *)
  Glob : string -> World -> result (list string)
}.
Arguments run {World} _ _ _ _.
Arguments Glob {World} _ _ _.

(** The host together with the log of the commands run so far, oldest first. *)
Record Sys (World : Type) : Type := {
  world : World;
  invocations : list (list string)
}.
Arguments world {World} _.
Arguments invocations {World} _.
Arguments Build_Sys {World} _ _.

(** ** The connection code *)

Record WireGuardConnection : Type := { Name : string; Active : bool }.

(** [lo.FilterMap], [lo.Filter], [lo.Find], [lo.Map] for callbacks that
    ignore the index, as all callbacks of the code do. *)
Fixpoint FilterMap {A B : Type} (collection : list A) (callback : A -> B * bool) : list B :=
  match collection with
  | [] => []
  | item :: rest =>
      let (r, ok) := callback item in
      if ok then r :: FilterMap rest callback else FilterMap rest callback
  end.

Definition Filter {A : Type} (collection : list A) (predicate : A -> bool) : list A :=
  List.filter predicate collection.

Definition Find {A : Type} (collection : list A) (predicate : A -> bool) : option A :=
  List.find predicate collection.

(** [slices.Contains] on strings. *)
Definition slices_Contains (s : list string) (v : string) : bool :=
  existsb (String.eqb v) s.

(** The character class [\s] of Go regular expressions. *)
Definition reSpace (c : ascii) : bool :=
  existsb (Ascii.eqb c) ["009"; "010"; "012"; "013"; " "]%char.

Definition noNewline (l : list ascii) : bool := forallb (fun c => negb (Ascii.eqb c LF)) l.

(** [interfaceRegex.FindStringSubmatch] for [^interface:\s+(.+)$]: the whole
    match and the group, or nothing.  The white space is matched greedily;
    when nothing follows it, its last character is given back to the group. *)
Definition interfaceRegex_FindStringSubmatch (s : string) : list string :=
  if HasPrefix s "interface:" then
    let rest := chars (string_drop 10 s) in
    let ws := takeWhile reSpace rest in
    let r := dropWhile reSpace rest in
    match ws, r with
    | [], _ => []
    | _ :: _, _ :: _ => if noNewline r then [s; text r] else []
    | _ :: _, [] =>
        match rev ws with
        | c :: _ :: _ => if negb (Ascii.eqb c LF) then [s; text [c]] else []
        | _ => []
        end
    end
  else [].

Definition statusLine (line : string) : string * bool :=
  let line := TrimSpace line in
  if Contains line "interface" then
    ("Connection: " ++ TrimPrefix line "interface:", true)
  else if Contains line "latest handshake" then
    ("Latest Handshake: " ++ TrimPrefix line "latest handshake:", true)
  else if Contains line "transfer" then
    ("Transfer: " ++ TrimPrefix line "transfer:", true)
  else ("", false).

(** The [status] slice of [GetStatus] just before it is joined. *)
Definition statusLines (output : list byte) : list string :=
  let status := FilterMap (Split (string_of_list_byte output) LF) statusLine in
  if negb (Nat.eqb (Nat.modulo (List.length status) 3) 0)
  then (status ++ ["Connection starting..."])%list
  else status.

(** The summary as the specification words it: the trimmed lines that
    contain one of the three keywords, each turned into its labelled display
    line, in source order; then the synthetic line when their number is not
    a multiple of three. *)
Definition relevant (line : string) : bool :=
  Contains line "interface" || Contains line "latest handshake" || Contains line "transfer".

Definition labelled (line : string) : string :=
  if Contains line "interface" then "Connection: " ++ TrimPrefix line "interface:"
  else if Contains line "latest handshake" then
    "Latest Handshake: " ++ TrimPrefix line "latest handshake:"
  else "Transfer: " ++ TrimPrefix line "transfer:".

Definition synthetic : string := "Connection starting...".

Definition extracted (raw : string) : list string :=
  map labelled (List.filter relevant (map TrimSpace (Split raw LF))).

Definition summary_spec (raw : string) : list string :=
  (extracted raw ++
   (if Nat.eqb (Nat.modulo (List.length (extracted raw)) 3) 0 then [] else [synthetic]))%list.

(** A string without line feed. *)
Definition LFfree (s : string) : Prop := noNewline (chars s) = true.

(** The tunnel states as the specification words them: every configured
    name, in order, annotated with its membership in the active names. *)
Definition connectionsOf (active all : list string) : list WireGuardConnection :=
  map (fun n => {| Name := n; Active := slices_Contains active n |}) all.

(** The callback of [lo.Map] in [getAllConnections]: the base name of a
    configuration file without its extension. *)
Definition configName (f : string) : string := TrimSuffix (Base f) (Ext f).

(** The argument vectors of the three commands. *)
Definition wg_show : list string := ["sudo"; "wg"; "show"].
Definition wg_quick_down (name : string) : list string := ["sudo"; "wg-quick"; "down"; name].
Definition wg_quick_up (name : string) : list string := ["sudo"; "wg-quick"; "up"; name].

Definition confPattern : string := "/etc/wireguard/*.conf".

(** The loop of [getActiveConnections]. *)
Definition activeNames (status : list byte) : list string :=
  fold_left
    (fun activeConnections line =>
       match interfaceRegex_FindStringSubmatch (TrimSpace line) with
       | _ :: group :: _ => (activeConnections ++ [group])%list
       | _ => activeConnections
       end)
    (Split (string_of_list_byte status) LF) [].

Section Orchestrator.

Context {World : Type} (host : Host World).

Definition Orch (A : Type) : Type := State (Sys World) A.

(** [exec.Command(argv...)] followed by [Output] or [CombinedOutput]. *)
Definition exec (c : capture) (argv : list string) : Orch (list byte * option error) :=
  fun s =>
    let (r, w) := run host c argv (world s) in
    (r, {| world := w; invocations := (invocations s ++ [argv])%list |}).

Definition glob (pattern : string) : Orch (result (list string)) :=
  fun s => (Glob host pattern (world s), s).

Definition showStatus : Orch (result (list byte)) :=
  r <- exec StdoutOnly wg_show ;;
  match snd r with
  | Some err => ret (Err (Wrapped "failed to execute wg show" err))
  | None => ret (Ok (fst r))
  end.

Definition GetStatus : Orch (result string) :=
  output <-? showStatus ;;
  ret (Ok (Join (statusLines output) (String LF ""))).

Definition getAllConnections : Orch (result (list string)) :=
  files <-? glob confPattern ;;
  ret (Ok (map configName files)).

Definition getActiveConnections : Orch (result (list string)) :=
  status <-? showStatus ;;
  ret (Ok (activeNames status)).

Definition GetConnections : Orch (result (list WireGuardConnection)) :=
  activeConnection <-? getActiveConnections ;;
  allConnections <-? getAllConnections ;;
  ret (Ok (fold_left
             (fun connections i =>
                (connections ++ [{| Name := i; Active := slices_Contains activeConnection i |}])%list)
             allConnections [])).

Definition getConnection (name : string) : Orch (result WireGuardConnection) :=
  allConnections <-? GetConnections ;;
  match Find allConnections (fun dev => String.eqb (Name dev) name) with
  | None => ret (Err (Message ("failed to find connection: " ++ name)))
  | Some connection => ret (Ok connection)
  end.

Fixpoint stopLoop (activeConnections : list WireGuardConnection) (output : list byte)
  : Orch (result (list byte)) :=
  match activeConnections with
  | [] => ret (Ok output)
  | activeConnection :: rest =>
      r <- exec StdoutAndStderr (wg_quick_down (Name activeConnection)) ;;
      match snd r with
      | Some err => ret (Err err)
      | None => stopLoop rest (output ++ fst r)%list
      end
  end.

Definition stopActiveConnections (activeConnections : list WireGuardConnection)
  : Orch (result (list byte)) :=
  stopLoop activeConnections [].

Definition startConnection (connection : WireGuardConnection) : Orch (result (list byte)) :=
  if Active connection then ret (Ok [])
  else
    r <- exec StdoutAndStderr (wg_quick_up (Name connection)) ;;
    match snd r with
    | Some err => ret (Err err)
    | None => ret (Ok (fst r))
    end.

Definition ToggleConnection (name : string) : Orch (result (list byte)) :=
  allConnections <-? GetConnections ;;
  let activeConnections := Filter allConnections (fun i => Active i) in
  connection <-? getConnection name ;;
  output <-? stopActiveConnections activeConnections ;;
  startOutput <-? startConnection connection ;;
  ret (Ok (output ++ startOutput)%list).

(** The host run through [wg-quick down] for each name in turn, when every
    one of them succeeds: the outputs concatenated and the final world. *)
Fixpoint deactivations (names : list string) (w : World) : option (list byte * World) :=
  match names with
  | [] => Some ([], w)
  | name :: rest =>
      match run host StdoutAndStderr (wg_quick_down name) w with
      | ((o, None), w1) =>
          match deactivations rest w1 with
          | Some (os, w2) => Some ((o ++ os)%list, w2)
          | None => None
          end
      | ((_, Some _), _) => None
      end
  end.

(** The value a caller holds in [output] after [output, err := f()]:
    every error path of the connection code returns [nil]. *)
Definition outputOf (r : result (list byte)) : list byte :=
  match r with
  | Ok output => output
  | Err _ => []
  end.

(** What [handleToggleAPI] of main.go logs and answers once the request
    body has been decoded into [name]. *)
Record Reply : Type := {
  logged : list string;
  statusCode : Z;
  Success : bool;
  ErrorText : string;
  Data : list (string * string)
}.

Definition handleToggleAPI (name : string) : Orch Reply :=
  if String.eqb (TrimSpace name) "" then
    ret {| logged := []; statusCode := 400; Success := false;
           ErrorText := "Connection name is required"; Data := [] |}
  else
    r <- ToggleConnection name ;;
    match r with
    | Err err =>
        ret {| logged := ["Error toggling connection " ++ name ++ ": " ++ Error err
                          ++ " (output: " ++ string_of_list_byte (outputOf r) ++ ")"];
               statusCode := 500; Success := false;
               ErrorText := Error err; Data := [] |}
    | Ok output =>
        ret {| logged := []; statusCode := 200; Success := true; ErrorText := "";
               Data := [("message", "Connection " ++ name ++ " toggled successfully");
                        ("output", string_of_list_byte output)] |}
    end.

End Orchestrator.

(** ** The interfaces behind the commands

    The connection code never sees the interfaces themselves, only what
    the commands print and how they exit.  To say what a toggle leaves
    behind, the worlds of a host are read through [up], the names of the
    interfaces that are up, and the two commands that matter are held to
    what [wg] and [wg-quick] do on every world: a successful [wg show]
    names exactly the interfaces that are up, and a successful
    [wg-quick down n] takes [n] down and leaves every other interface as
    it was. *)
Record Interfaces {World : Type} (host : Host World) (up : World -> list string)
  : Prop := {
  probe_lists :
    forall (w : World) (out : list byte) (w' : World),
      run host StdoutOnly wg_show w = ((out, None), w') ->
      forall n, In n (activeNames out) <-> In n (up w);
  down_takes_down :
    forall (n : string) (w : World) (out : list byte) (w' : World),
      run host StdoutAndStderr (wg_quick_down n) w = ((out, None), w') ->
      forall m, In m (up w') <-> (In m (up w) /\ m <> n)
}.

(** ** A simulated host

    A small executable host used to run the connection code on concrete
    inputs: the configuration files present, the interfaces that are up,
    the names whose activation fails, the interfaces whose first handshake
    is pending, and whether [wg show] fails. *)

Module SimHost.

Record World : Type := {
  confs : list string;
  up : list string;
  broken : list string;
  pending : list string;
  wgDenied : bool
}.

Definition nl : string := String LF "".

(** The block [wg show] prints for one interface; the handshake line is
    missing while the first handshake is pending. *)
Definition showBlock (w : World) (name : string) : string :=
  "interface: " ++ name ++ nl ++
  "  public key: mF0Vn5bWk0x1dX2c=" ++ nl ++
  "  listening port: 51820" ++ nl ++
  nl ++
  "peer: Zt9q1aY7c3M8hP4s=" ++ nl ++
  "  endpoint: 203.0.113.7:51820" ++ nl ++
  (if existsb (String.eqb name) (pending w) then ""
   else "  latest handshake: 12 seconds ago" ++ nl) ++
  "  transfer: 1.21 KiB received, 3.40 KiB sent" ++ nl ++
  nl.

Definition wgShow (w : World) : string := String.concat "" (map (showBlock w) (up w)).

Definition isUp (w : World) (name : string) : bool := existsb (String.eqb name) (up w).

Definition exitStatus1 : error := External "exit status 1".

(** What [wg-quick] prints: on a successful [down], on a successful
    [up], and on an [up] that fails. *)
Definition downOutput (name : string) : list byte :=
  list_byte_of_string ("[#] ip link delete dev " ++ name ++ nl).

Definition upOutput (name : string) : list byte :=
  list_byte_of_string ("[#] ip link add " ++ name ++ " type wireguard" ++ nl).

Definition upFailure (name : string) : list byte :=
  list_byte_of_string ("[#] ip link add " ++ name ++ " type wireguard" ++ nl ++
                       "RTNETLINK answers: Operation not supported" ++ nl ++
                       "[#] ip link delete dev " ++ name ++ nl).

Definition wgQuickDown (name : string) (w : World) : (list byte * option error) * World :=
  if isUp w name then
    ((downOutput name, None),
     {| confs := confs w;
        up := List.filter (fun n => negb (String.eqb n name)) (up w);
        broken := broken w;
        pending := List.filter (fun n => negb (String.eqb n name)) (pending w);
        wgDenied := wgDenied w |})
  else
    ((list_byte_of_string ("wg-quick: " ++ name ++ " is not a WireGuard interface" ++ nl),
      Some exitStatus1), w).

Definition wgQuickUp (name : string) (w : World) : (list byte * option error) * World :=
  if existsb (String.eqb name) (broken w) then
    ((upFailure name, Some exitStatus1), w)
  else if isUp w name then
    ((list_byte_of_string ("wg-quick: " ++ name ++ " already exists" ++ nl),
      Some exitStatus1), w)
  else
    ((upOutput name, None),
     {| confs := confs w; up := (up w ++ [name])%list; broken := broken w;
        pending := pending w; wgDenied := wgDenied w |}).

Definition sim_run (c : capture) (argv : list string) (w : World)
  : (list byte * option error) * World :=
  match argv with
  | ["sudo"; "wg"; "show"] =>
      if wgDenied w then (([], Some exitStatus1), w)
      else ((list_byte_of_string (wgShow w), None), w)
  | ["sudo"; "wg-quick"; "down"; name] => wgQuickDown name w
  | ["sudo"; "wg-quick"; "up"; name] => wgQuickUp name w
  | _ => (([], Some (External "executable file not found in $PATH")), w)
  end.

Definition sim_Glob (pattern : string) (w : World) : result (list string) :=
  if String.eqb pattern "/etc/wireguard/*.conf" then Ok (confs w) else Ok [].

Definition host : Host World := {| run := sim_run; Glob := sim_Glob |}.

Definition boot (w : World) : Sys World := {| world := w; invocations := [] |}.

(** home and office configured, home up. *)
Definition home_up : World :=
  {| confs := ["/etc/wireguard/home.conf"; "/etc/wireguard/office.conf"];
     up := ["home"]; broken := []; pending := []; wgDenied := false |}.

(** home and office configured, office up. *)
Definition office_up : World :=
  {| confs := ["/etc/wireguard/home.conf"; "/etc/wireguard/office.conf"];
     up := ["office"]; broken := []; pending := []; wgDenied := false |}.

(** home and office configured, home up with its first handshake pending. *)
Definition home_starting : World :=
  {| confs := ["/etc/wireguard/home.conf"; "/etc/wireguard/office.conf"];
     up := ["home"]; broken := []; pending := ["home"]; wgDenied := false |}.

(** home and office configured, home up, the activation of office fails. *)
Definition office_broken : World :=
  {| confs := ["/etc/wireguard/home.conf"; "/etc/wireguard/office.conf"];
     up := ["home"]; broken := ["office"]; pending := []; wgDenied := false |}.

(** home and office configured, nothing up, the activation of office fails. *)
Definition office_broken_down : World :=
  {| confs := ["/etc/wireguard/home.conf"; "/etc/wireguard/office.conf"];
     up := []; broken := ["office"]; pending := []; wgDenied := false |}.

(** The output of [wg show] as bytes. *)
Definition probe (w : World) : list byte := list_byte_of_string (wgShow w).

(** home and office configured, nothing up. *)
Definition all_down : World :=
  {| confs := ["/etc/wireguard/home.conf"; "/etc/wireguard/office.conf"];
     up := []; broken := []; pending := []; wgDenied := false |}.

(** home and office configured, home up, [wg show] exits with status 1. *)
Definition probe_denied : World :=
  {| confs := ["/etc/wireguard/home.conf"; "/etc/wireguard/office.conf"];
     up := ["home"]; broken := []; pending := []; wgDenied := true |}.

End SimHost.

(** ** A host with two tunnels

    home and office are configured and each is up or down: the whole
    state of this host is two flags, so that what its commands do can be
    checked on every world. *)

Module PairHost.

Record World : Type := { home : bool; office : bool }.

(** The interfaces that are up. *)
Definition up (w : World) : list string :=
  ((if home w then ["home"] else []) ++ (if office w then ["office"] else []))%list.

Definition confs : list string :=
  ["/etc/wireguard/home.conf"; "/etc/wireguard/office.conf"].

Definition showBlock (name : string) : string :=
  "interface: " ++ name ++ SimHost.nl ++
  "  public key: mF0Vn5bWk0x1dX2c=" ++ SimHost.nl ++
  "  listening port: 51820" ++ SimHost.nl ++
  SimHost.nl.

Definition wgShow (w : World) : list byte :=
  list_byte_of_string (String.concat "" (map showBlock (up w))).

Definition refused (name : string) : list byte * option error :=
  (list_byte_of_string ("wg-quick: cannot change " ++ name ++ SimHost.nl),
   Some SimHost.exitStatus1).

Definition changed (name : string) : list byte * option error :=
  (list_byte_of_string ("[#] ip link set dev " ++ name ++ SimHost.nl), None).

(** [wg-quick up name] ([on] true) and [wg-quick down name] ([on] false):
    refused for a name that is not configured and for an interface that is
    already in the state asked for. *)
Definition wgQuick (on : bool) (name : string) (w : World)
  : (list byte * option error) * World :=
  if String.eqb name "home" then
    if Bool.eqb (home w) on then (refused name, w)
    else (changed name, {| home := on; office := office w |})
  else if String.eqb name "office" then
    if Bool.eqb (office w) on then (refused name, w)
    else (changed name, {| home := home w; office := on |})
  else (refused name, w).

Definition pair_run (c : capture) (argv : list string) (w : World)
  : (list byte * option error) * World :=
  match argv with
  | ["sudo"; "wg"; "show"] => ((wgShow w, None), w)
  | ["sudo"; "wg-quick"; "down"; name] => wgQuick false name w
  | ["sudo"; "wg-quick"; "up"; name] => wgQuick true name w
  | _ => (([], Some (External "executable file not found in $PATH")), w)
  end.

Definition pair_Glob (pattern : string) (w : World) : result (list string) :=
  if String.eqb pattern "/etc/wireguard/*.conf" then Ok confs else Ok [].

Definition host : Host World := {| run := pair_run; Glob := pair_Glob |}.

(** home up and office down; both down. *)
Definition home_only : World := {| home := true; office := false |}.

Definition both_down : World := {| home := false; office := false |}.

End PairHost.

(** ** Sample session stores *)

(** The token made from 32 zero bytes, and the store holding it with expiry
    one hour after time 0. *)
Definition zeroToken : string := EncodeToString (repeat x00 32).

Definition zeroStore : SessionManager :=
  {| sessions := <[zeroToken := {| Expires := Hour |}]> ∅ |}.

(** ** Reading hexadecimal text back

    The inverse of [EncodeToString] on lower-case digits, used to state that
    tokens and digests determine the bytes they were made from. *)

Definition isHexLower (c : ascii) : bool := existsb (Ascii.eqb c) (chars hextable).

Definition hexval (c : ascii) : option Z :=
  match String.index 0 (String c EmptyString) hextable with
  | Some n => Some (Z.of_nat n)
  | None => None
  end.

Fixpoint decodeLower (s : string) : option (list byte) :=
  match s with
  | EmptyString => Some []
  | String c1 (String c2 rest) =>
      match hexval c1, hexval c2, decodeLower rest with
      | Some h, Some l, Some bs => Some (byte_of_Z (h * 16 + l) :: bs)
      | _, _, _ => None
      end
  | String _ EmptyString => None
  end.

(** ** Published SHA-256 values

    Messages with the digests the standard publishes for them: the empty
    message, and the one-block, two-block and 896-bit examples of FIPS 180
    and of the NIST example values for SHA-256. *)
Definition known_answers : list (string * string) :=
  [ ("",
     "e3b0c44298fc1c149afbf4c8996fb92427ae41e4649b934ca495991b7852b855");
    ("abc",
     "ba7816bf8f01cfea414140de5dae2223b00361a396177a9cb410ff61f20015ad");
    ("abcdbcdecdefdefgefghfghighijhijkijkljklmklmnlmnomnopnopq",
     "248d6a61d20638b8e5c026930c3e6039a33ce45964ff2167f6ecedd419db06c1");
    ("abcdefghbcdefghicdefghijdefghijkefghijklfghijklmghijklmnhijklmno" ++
     "ijklmnopjklmnopqklmnopqrlmnopqrsmnopqrstnopqrstu",
     "cf5b16a778af8380036ce59e7b0492370b249b11e8f07a51afac45037afee9d1") ].

(** A digest function that returns the published digest on each of the
    messages. *)
Definition agrees_on (H : list byte -> list byte) (answers : list (string * string))
  : Prop :=
  List.Forall
    (fun kv => EncodeToString (H (list_byte_of_string (fst kv))) = snd kv) answers.

(** Passwords with their stored hashes as [sha256sum] gives them when it is
    run on the password and again on the 64 digits it printed. *)
Definition known_hashes : list (string * string) :=
  [ ("",
     "cd372fb85148700fa88095e3492d3f9f5beb43e555e5ff26d95f5a6adc36f8e6");
    ("hunter2",
     "b6ff43379b25b8ee6a4fcb150c0924842cf00965925494c59fe1655304592d22");
    ("password",
     "113459eb7bb31bddee85ade5230d6ad5d8b2fb52879e00a84ff6ae1067a210d3") ].

(** Whether [ValidateSession] accepts [t] at time [now]. *)
Definition valid_at (now : Z) (t : string) (sm : SessionManager) : bool :=
  snd (fst (ValidateSession now t sm)).

(** A name without path separator, and the path of its configuration file
    in [dir]. *)
Definition noSlash (name : string) : bool :=
  forallb (fun c => negb (isPathSeparator c)) (chars name).

Definition confFile (dir name : string) : string := dir ++ "/" ++ name ++ ".conf".

(** What [^interface:\s+(.+)$] asks of a string: the literal, then the
    white space [ws] (at least one character of the class [\s]), then the
    group [name] (at least one character, none of them a line feed). *)
Definition interfaceLine (s : string) (ws : list ascii) (name : string) : Prop :=
  s = "interface:" ++ text ws ++ name /\
  ws <> [] /\ forallb reSpace ws = true /\
  name <> "" /\ LFfree name.

(** The same on the characters that follow the literal, and the group the
    matcher of [interfaceRegex_FindStringSubmatch] picks among them. *)
Definition interfaceRest (rest ws g : list ascii) : Prop :=
  rest = (ws ++ g)%list /\
  ws <> [] /\ forallb reSpace ws = true /\
  g <> [] /\ noNewline g = true.

Definition groupOf (rest : list ascii) : option (list ascii) :=
  match takeWhile reSpace rest, dropWhile reSpace rest with
  | [], _ => None
  | _ :: _, r0 :: r => if noNewline (r0 :: r) then Some (r0 :: r) else None
  | w :: ws, [] =>
      match rev (w :: ws) with
      | c :: _ :: _ => if negb (Ascii.eqb c LF) then Some [c] else None
      | _ => None
      end
  end.

(** ** More sample hosts *)

(** home, office and lab configured, home and office up. *)
Definition three_tunnels : SimHost.World :=
  {| SimHost.confs := ["/etc/wireguard/home.conf"; "/etc/wireguard/office.conf";
                       "/etc/wireguard/lab.conf"];
     SimHost.up := ["home"; "office"]; SimHost.broken := [];
     SimHost.pending := []; SimHost.wgDenied := false |}.

(** The same, the activation of lab failing. *)
Definition lab_broken : SimHost.World :=
  {| SimHost.confs := ["/etc/wireguard/home.conf"; "/etc/wireguard/office.conf";
                       "/etc/wireguard/lab.conf"];
     SimHost.up := ["home"; "office"]; SimHost.broken := ["lab"];
     SimHost.pending := []; SimHost.wgDenied := false |}.

(** A host on which home is up and cannot be brought down: every
    [wg-quick down] exits with status 1. *)
Module StuckHost.

Definition showText : list byte :=
  list_byte_of_string ("interface: home" ++ String LF "").

Definition downText : list byte :=
  list_byte_of_string ("wg-quick: Operation not permitted" ++ String LF "").

Definition stuck_run (c : capture) (argv : list string) (w : unit)
  : (list byte * option error) * unit :=
  match argv with
  | ["sudo"; "wg"; "show"] => ((showText, None), w)
  | ["sudo"; "wg-quick"; "down"; _] => ((downText, Some (External "exit status 1")), w)
  | _ => (([], None), w)
  end.

Definition stuck_Glob (pattern : string) (w : unit) : result (list string) :=
  Ok ["/etc/wireguard/home.conf"; "/etc/wireguard/office.conf"].

Definition host : Host unit := {| run := stuck_run; Glob := stuck_Glob |}.

End StuckHost.

(** ** The configuration (internal/config.go) *)

(** The [Config] struct with [Host], [Port] and [PasswordHash]. *)
Record Config : Type := {
  ConfigHost : string;
  ConfigPort : string;
  PasswordHash : string
}.

Definition DefaultConfig : Config :=
  {| ConfigHost := "0.0.0.0"; ConfigPort := "8080"; PasswordHash := "" |}.

(** [GetAddress]: [fmt.Sprintf("%s:%s", c.Host, c.Port)]. *)
Definition GetAddress (c : Config) : string := ConfigHost c ++ ":" ++ ConfigPort c.

(** ** main.go: the HTTP handlers

    A request is what the handlers read of [*http.Request]; the ambient
    values are what they read of the outside during one request: the clock,
    the outcome of [rand.Read], and the outcome of [ExecuteTemplate].  A
    response is what they write to [http.ResponseWriter] and to the log. *)

Record Request : Type := {
  Method : string;
  URLPath : string;
  (** [r.Cookie("session_id")]: the value, or nothing when the cookie is missing. *)
  SessionCookie : option string;
  (** [r.FormValue("password")]. *)
  FormPassword : string;
  (** The field [name] decoded from the JSON body; nothing when decoding fails. *)
  BodyName : option string
}.

Record Ambient : Type := {
  Now : Z;
  Entropy : result (list byte);
  TemplateError : option error
}.

Record Cookie : Type := {
  CookieName : string;
  CookieValue : string;
  CookieExpires : option Z;
  MaxAge : Z;
  HttpOnly : bool;
  SameSiteStrict : bool
}.

(** The [Data] field of [APIResponse]. *)
Inductive APIData : Type :=
| NoData
| Connections (connections : list WireGuardConnection)
| Fields (fields : list (string * string)).

Inductive Payload : Type :=
| NoPayload
| Page (template : string) (data : list (string * string))
| PlainText (msg : string)
| JSONBody (success : bool) (data : APIData) (errorText : string).

Record Response : Type := {
  Status : Z;
  Location : option string;
  SetCookie : option Cookie;
  Body : Payload;
  Logs : list string
}.

(** The state the server holds between requests: the session manager and
    the host with its invocation log. *)
Record Server (World : Type) : Type := {
  sessionManager : SessionManager;
  system : Sys World
}.
Arguments sessionManager {World} _.
Arguments system {World} _.
Arguments Build_Server {World} _ _.

Definition plain (code : Z) (body : Payload) (logs : list string) : Response :=
  {| Status := code; Location := None; SetCookie := None; Body := body; Logs := logs |}.

(** [http.Redirect(w, r, url, http.StatusSeeOther)]. *)
Definition Redirect (url : string) : Response :=
  {| Status := 303; Location := Some url; SetCookie := None; Body := NoPayload; Logs := [] |}.

(** [sendSuccessResponse] and [sendErrorResponse]. *)
Definition sendSuccessResponse (data : APIData) : Response :=
  plain 200 (JSONBody true data "") [].

Definition sendErrorResponse (message : string) (statusCode : Z) (logs : list string)
  : Response :=
  plain statusCode (JSONBody false NoData message) logs.

(** [s.templates.ExecuteTemplate(w, name, data)] with its error branch. *)
Definition renderTemplate (amb : Ambient) (name : string) (data : list (string * string))
    (logPrefix : string) : Response :=
  match TemplateError amb with
  | Some err => plain 500 (PlainText "Internal Server Error") [logPrefix ++ Error err]
  | None => plain 200 (Page name data) []
  end.

Section Handlers.

Context {World : Type} (host : Host World) (config : Config).

Definition Handler : Type := Request -> Ambient -> State (Server World) Response.

Definition onSessions {A : Type} (m : State SessionManager A) : State (Server World) A :=
  fun st =>
    let (a, sm) := m (sessionManager st) in
    (a, {| sessionManager := sm; system := system st |}).

Definition onSystem {A : Type} (m : State (Sys World) A) : State (Server World) A :=
  fun st =>
    let (a, sys) := m (system st) in
    (a, {| sessionManager := sessionManager st; system := sys |}).

Definition requireAuth (next : Handler) : Handler :=
  fun req amb =>
    match SessionCookie req with
    | None => ret (Redirect "/login")
    | Some value =>
        r <- onSessions (ValidateSession (Now amb) value) ;;
        if snd r then next req amb else ret (Redirect "/login")
    end.

Definition handleHome : Handler :=
  fun req amb =>
    if negb (String.eqb (URLPath req) "/") then
      ret (plain 404 (PlainText "404 page not found") [])
    else ret (renderTemplate amb "index.html" [] "Error rendering template: ").

Definition handleLogin : Handler :=
  fun req amb =>
    if String.eqb (Method req) "GET" then
      ret (renderTemplate amb "login.html" [("Error", "")] "Error rendering login template: ")
    else if String.eqb (Method req) "POST" then
      let password := FormPassword req in
      if ValidatePassword password (PasswordHash config) then
        r <- onSessions (CreateSession (Entropy amb) (Now amb)) ;;
        match r with
        | Err err =>
            ret (plain 500 (PlainText "Internal Server Error")
                   ["Error creating session: " ++ Error err])
        | Ok (sessionID, expires) =>
            ret {| Status := 303; Location := Some "/";
                   SetCookie := Some {| CookieName := "session_id"; CookieValue := sessionID;
                                        CookieExpires := Some expires; MaxAge := 0;
                                        HttpOnly := true; SameSiteStrict := true |};
                   Body := NoPayload; Logs := [] |}
        end
      else
        ret (renderTemplate amb "login.html" [("Error", "Wrong password")]
               "Error rendering login template: ")
    else ret (plain 405 (PlainText "Method not allowed") []).

Definition handleLogout : Handler :=
  fun req amb =>
    if negb (String.eqb (Method req) "POST") then
      ret (plain 405 (PlainText "Method not allowed") [])
    else
      _ <- match SessionCookie req with
           | Some value => onSessions (DeleteSession value)
           | None => ret tt
           end ;;
      ret {| Status := 303; Location := Some "/login";
             SetCookie := Some {| CookieName := "session_id"; CookieValue := "";
                                  CookieExpires := None; MaxAge := -1;
                                  HttpOnly := true; SameSiteStrict := true |};
             Body := NoPayload; Logs := [] |}.

Definition handleConnectionsAPI : Handler :=
  fun req amb =>
    if negb (String.eqb (Method req) "GET") then
      ret (sendErrorResponse "Method not allowed" 405 [])
    else
      r <- onSystem (GetConnections host) ;;
      match r with
      | Err err =>
          ret (sendErrorResponse (Error err) 500 ["Error getting connections: " ++ Error err])
      | Ok connections => ret (sendSuccessResponse (Connections connections))
      end.

(** The whole of [handleToggleAPI]: the method check and the decoding of
    the body, then the part modelled by [handleToggleAPI] above. *)
Definition handleToggleRequest : Handler :=
  fun req amb =>
    if negb (String.eqb (Method req) "POST") then
      ret (sendErrorResponse "Method not allowed" 405 [])
    else
      match BodyName req with
      | None => ret (sendErrorResponse "Invalid JSON" 400 [])
      | Some name =>
          reply <- onSystem (handleToggleAPI host name) ;;
          if Success reply then ret (sendSuccessResponse (Fields (Data reply)))
          else ret (sendErrorResponse (ErrorText reply) (statusCode reply) (logged reply))
      end.

Definition handleStatusAPI : Handler :=
  fun req amb =>
    if negb (String.eqb (Method req) "GET") then
      ret (sendErrorResponse "Method not allowed" 405 [])
    else
      r <- onSystem (GetStatus host) ;;
      match r with
      | Err err =>
          ret (sendErrorResponse (Error err) 500 ["Error getting status: " ++ Error err])
      | Ok status => ret (sendSuccessResponse (Fields [("status", status)]))
      end.

End Handlers.

(** ** Sample requests *)

(** A configuration whose stored hash is the digest of "hunter2". *)
Definition sampleConfig : Config :=
  {| ConfigHost := "0.0.0.0"; ConfigPort := "8080";
     PasswordHash := "b6ff43379b25b8ee6a4fcb150c0924842cf00965925494c59fe1655304592d22" |}.

Definition loginRequest (password : string) : Request :=
  {| Method := "POST"; URLPath := "/login"; SessionCookie := None;
     FormPassword := password; BodyName := None |}.

Definition logoutRequest (method : string) (cookie : option string) : Request :=
  {| Method := method; URLPath := "/logout"; SessionCookie := cookie;
     FormPassword := ""; BodyName := None |}.

Definition toggleRequest (method : string) (cookie : option string) (body : option string)
  : Request :=
  {| Method := method; URLPath := "/api/connections/toggle"; SessionCookie := cookie;
     FormPassword := ""; BodyName := body |}.

Definition ambientAt (now : Z) (entropy : result (list byte)) : Ambient :=
  {| Now := now; Entropy := entropy; TemplateError := None |}.

(** A server that has just started on the host where home is up, and the
    same server holding the session of [zeroToken]. *)
Definition freshServer : Server SimHost.World :=
  {| sessionManager := NewSessionManager; system := SimHost.boot SimHost.home_up |}.

Definition openServer : Server SimHost.World :=
  {| sessionManager := zeroStore; system := SimHost.boot SimHost.home_up |}.

(** ** Histories of the session store

    The calls a server makes on its session manager, and the store they
    leave when run in order from [NewSessionManager]. *)

Inductive StoreOp : Type :=
| OpCreate (rnd : result (list byte)) (now : Z)
| OpValidate (now : Z) (sessionID : string)
| OpDelete (sessionID : string)
| OpSweep (now : Z).

Definition stepStore (sm : SessionManager) (op : StoreOp) : SessionManager :=
  match op with
  | OpCreate rnd now => snd (CreateSession rnd now sm)
  | OpValidate now sessionID => snd (ValidateSession now sessionID sm)
  | OpDelete sessionID => snd (DeleteSession sessionID sm)
  | OpSweep now => snd (cleanupExpiredSessions_tick now sm)
  end.

Definition runStore (ops : list StoreOp) : SessionManager :=
  fold_left stepStore ops NewSessionManager.

(** * Properties *)

(** ** Test vectors for the digest and the text functions *)

Example sha256_abc :
  EncodeToString (SHA256.Sum256 (list_byte_of_string "abc"))
  = "ba7816bf8f01cfea414140de5dae2223b00361a396177a9cb410ff61f20015ad".
Proof. vm_compute. reflexivity. Qed.

Example sha256_empty :
  EncodeToString (SHA256.Sum256 [])
  = "e3b0c44298fc1c149afbf4c8996fb92427ae41e4649b934ca495991b7852b855".
Proof. vm_compute. reflexivity. Qed.

Example sha256_two_blocks :
  EncodeToString (SHA256.Sum256 (repeat x61 70))
  = "6bd5e5034855a11241f0dee8fc72850ffd9955b28347a86428b5fa19119f6ad0".
Proof. vm_compute. reflexivity. Qed.

Example GeneratePasswordHash_hunter2 :
  GeneratePasswordHash "hunter2"
  = "b6ff43379b25b8ee6a4fcb150c0924842cf00965925494c59fe1655304592d22".
Proof. vm_compute. reflexivity. Qed.

Example configName_home : configName "/etc/wireguard/home.conf" = "home".
Proof. reflexivity. Qed.

Example configName_dotted : configName "/etc/wireguard/a.b.conf" = "a.b".
Proof. reflexivity. Qed.

(** ** Credential verifier *)

(** [ValidatePassword] is exactly equality with the digest: a different
    stored digest is rejected. *)
Lemma ValidatePassword_iff :
  forall p h, ValidatePassword p h = true <-> h = GeneratePasswordHash p.
Proof.
  intros p h. unfold ValidatePassword. rewrite String.eqb_eq. split; congruence.
Qed.

(** ** Session store *)

Lemma ValidateSession_unfold :
  forall now t sm,
    ValidateSession now t sm =
    (match sessions sm !! t with
     | Some s => if After now (Expires s) then (None, false) else (Some s, true)
     | None => (None, false)
     end, sm).
Proof.
  intros now t sm. unfold ValidateSession, bind, get, ret.
  destruct (sessions sm !! t) as [s|]; [destruct (After now (Expires s))|]; reflexivity.
Qed.

Lemma After_true : forall t u, After t u = true <-> u < t.
Proof. intros t u. unfold After. apply Z.ltb_lt. Qed.

Lemma After_false : forall t u, After t u = false <-> t <= u.
Proof. intros t u. unfold After. rewrite Z.ltb_ge. reflexivity. Qed.

Lemma CreateSession_ok :
  forall rnd now sm t expiresAt sm',
    CreateSession rnd now sm = (Ok (t, expiresAt), sm') ->
    exists bytes,
      rnd = Ok bytes /\ t = EncodeToString bytes /\ expiresAt = now + Hour /\
      sessions sm' = <[t := {| Expires := expiresAt |}]> (sessions sm).
Proof.
  intros rnd now sm t expiresAt sm' H. unfold CreateSession in H.
  destruct rnd as [bytes|e]; simpl in H.
  - unfold bind, modify, ret in H. injection H as Ht He Hs. subst.
    exists bytes. split; [reflexivity|]. split; [reflexivity|].
    split; [unfold Hour; lia | reflexivity].
  - unfold ret in H. discriminate H.
Qed.

(** C5 (amended). A token created by [CreateSession] with expiry
    [expiresAt] (one hour after creation) is valid at every time up to and
    including [expiresAt], and invalid at every time strictly after it. *)
Theorem validate_until_expiry :
  forall rnd now sm t expiresAt sm',
    CreateSession rnd now sm = (Ok (t, expiresAt), sm') ->
    expiresAt = now + Hour /\
    (forall now', now' <= expiresAt ->
       ValidateSession now' t sm' = ((Some {| Expires := expiresAt |}, true), sm')) /\
    (forall now', expiresAt < now' ->
       ValidateSession now' t sm' = ((None, false), sm')).
Proof.
  intros rnd now sm t expiresAt sm' H.
  destruct (CreateSession_ok _ _ _ _ _ _ H) as (bytes & _ & _ & Hexp & Hs).
  split; [exact Hexp|].
  split; intros now' Hnow; rewrite ValidateSession_unfold, Hs, lookup_insert_eq; simpl.
  - apply After_false in Hnow. rewrite Hnow. reflexivity.
  - apply After_true in Hnow. rewrite Hnow. reflexivity.
Qed.

Lemma zeroStore_lookup : sessions zeroStore !! zeroToken = Some {| Expires := Hour |}.
Proof. unfold zeroStore. simpl. apply lookup_insert_eq. Qed.

Lemma CreateSession_zero :
  CreateSession (Ok (repeat x00 32)) 0 NewSessionManager = (Ok (zeroToken, Hour), zeroStore).
Proof.
  unfold CreateSession, generateSecureToken, bind, modify, ret, zeroStore, NewSessionManager.
  fold zeroToken. simpl sessions.
  replace (0 + 1 * Hour) with Hour by (unfold Hour; lia). reflexivity.
Qed.

Lemma validate_until_expiry_witness :
  CreateSession (Ok (repeat x00 32)) 0 NewSessionManager = (Ok (zeroToken, Hour), zeroStore) /\
  (Hour = 0 + Hour /\
   (forall now', now' <= Hour ->
      ValidateSession now' zeroToken zeroStore = ((Some {| Expires := Hour |}, true), zeroStore)) /\
   (forall now', Hour < now' ->
      ValidateSession now' zeroToken zeroStore = ((None, false), zeroStore))).
Proof.
  split; [exact CreateSession_zero|].
  exact (validate_until_expiry (Ok (repeat x00 32)) 0 NewSessionManager
           zeroToken Hour zeroStore CreateSession_zero).
Defined.

(** C5, as stated, fails at the instant of expiry: the token created at
    time 0 expires at [Hour], and [ValidateSession] at time [Hour] still
    returns the session and [true]. *)
Lemma validate_at_expiry_counterexample :
  fst (CreateSession (Ok (repeat x00 32)) 0 NewSessionManager)
  = Ok ("0000000000000000000000000000000000000000000000000000000000000000", 3600000000000) /\
  fst (ValidateSession 3600000000000
         "0000000000000000000000000000000000000000000000000000000000000000"
         (snd (CreateSession (Ok (repeat x00 32)) 0 NewSessionManager)))
  = (Some {| Expires := 3600000000000 |}, true).
Proof.
  rewrite CreateSession_zero. simpl fst. simpl snd.
  split; [reflexivity|].
  rewrite ValidateSession_unfold.
  change "0000000000000000000000000000000000000000000000000000000000000000" with zeroToken.
  rewrite zeroStore_lookup. reflexivity.
Qed.

(** C6. Whatever the store holds for [t] (an unexpired session, an expired
    one, or nothing), [ValidateSession] after [DeleteSession] returns
    [false]; [DeleteSession] is total and returns no error, deleting an
    absent token leaves the store as it is, and deleting twice leaves the
    store that deleting once leaves. *)
Theorem invalidate_then_validate :
  forall t now sm,
    fst (ValidateSession now t (snd (DeleteSession t sm))) = (None, false) /\
    snd (DeleteSession t (snd (DeleteSession t sm))) = snd (DeleteSession t sm) /\
    (sessions sm !! t = None -> DeleteSession t sm = (tt, sm)).
Proof.
  intros t now sm. unfold DeleteSession, modify. simpl. repeat split.
  - rewrite ValidateSession_unfold. simpl. rewrite lookup_delete_eq. reflexivity.
  - f_equal. apply map_eq. intros k.
    destruct (decide (t = k)) as [->|Hne].
    + rewrite !lookup_delete_eq. reflexivity.
    + rewrite !lookup_delete_ne by exact Hne. reflexivity.
  - intros Habs. destruct sm as [m]. simpl in *. do 2 f_equal.
    apply delete_id. exact Habs.
Qed.

Lemma invalidate_then_validate_witness :
  fst (ValidateSession 5 zeroToken (snd (DeleteSession zeroToken NewSessionManager))) = (None, false) /\
  snd (DeleteSession zeroToken (snd (DeleteSession zeroToken NewSessionManager)))
  = snd (DeleteSession zeroToken NewSessionManager) /\
  sessions NewSessionManager !! zeroToken = None /\
  DeleteSession zeroToken NewSessionManager = (tt, NewSessionManager).
Proof.
  destruct (invalidate_then_validate zeroToken 5 NewSessionManager) as (Hv & Hi & Ha).
  split; [exact Hv|]. split; [exact Hi|].
  split; [apply lookup_empty | apply Ha; apply lookup_empty].
Defined.

(** The three prior states of C6, separately. *)
Lemma DeleteSession_removes :
  forall t sm, sessions (snd (DeleteSession t sm)) !! t = None.
Proof. intros t sm. simpl. apply lookup_delete_eq. Qed.

Lemma DeleteSession_frame :
  forall t t' sm, t <> t' -> sessions (snd (DeleteSession t sm)) !! t' = sessions sm !! t'.
Proof. intros t t' sm Hne. simpl. apply lookup_delete_ne. exact Hne. Qed.

(** C10. [ValidateSession] returns the store it was given, whether the
    token is present, absent or expired; an expired entry is reported
    invalid and is still in the store afterwards. *)
Theorem validate_leaves_store :
  forall now t sm,
    snd (ValidateSession now t sm) = sm /\
    (forall s, sessions sm !! t = Some s -> After now (Expires s) = true ->
       fst (ValidateSession now t sm) = (None, false) /\
       sessions (snd (ValidateSession now t sm)) !! t = Some s).
Proof.
  intros now t sm. rewrite ValidateSession_unfold. simpl. split; [reflexivity|].
  intros s Hs Hexp. rewrite Hs, Hexp. split; reflexivity.
Qed.

Lemma validate_leaves_store_witness :
  snd (ValidateSession (Hour + 1) zeroToken zeroStore) = zeroStore /\
  (sessions zeroStore !! zeroToken = Some {| Expires := Hour |} /\
   After (Hour + 1) Hour = true /\
   fst (ValidateSession (Hour + 1) zeroToken zeroStore) = (None, false) /\
   sessions (snd (ValidateSession (Hour + 1) zeroToken zeroStore)) !! zeroToken
   = Some {| Expires := Hour |}).
Proof.
  destruct (validate_leaves_store (Hour + 1) zeroToken zeroStore) as [Hframe Hexpired].
  split; [exact Hframe|].
  split; [exact zeroStore_lookup|].
  split; [reflexivity|].
  exact (Hexpired {| Expires := Hour |} zeroStore_lookup eq_refl).
Defined.

(** The sweep, unlike validation, removes exactly the expired entries. *)
Lemma cleanup_tick_lookup :
  forall now t sm,
    sessions (snd (cleanupExpiredSessions_tick now sm)) !! t =
    match sessions sm !! t with
    | Some s => if After now (Expires s) then None else Some s
    | None => None
    end.
Proof.
  intros now t sm. simpl.
  destruct (sessions sm !! t) as [s|] eqn:Hs.
  - destruct (After now (Expires s)) eqn:Ha.
    + apply map_lookup_filter_None. right. intros x Hx. simpl.
      rewrite Hs in Hx. injection Hx as <-. rewrite Ha. discriminate.
    + apply map_lookup_filter_Some. split; [exact Hs | exact Ha].
  - apply map_lookup_filter_None. left. exact Hs.
Qed.

(** [CreateSession] removes nothing either: a token present before is
    present after. *)
Lemma CreateSession_keeps :
  forall rnd now sm t,
    is_Some (sessions sm !! t) ->
    is_Some (sessions (snd (CreateSession rnd now sm)) !! t).
Proof.
  intros rnd now sm t Hin. unfold CreateSession.
  destruct (generateSecureToken rnd) as [id|e]; simpl; [|exact Hin].
  destruct (decide (id = t)) as [->|Hne].
  - rewrite lookup_insert_eq. eauto.
  - rewrite lookup_insert_ne by exact Hne. exact Hin.
Qed.

(** ** Status summary *)

Lemma statusLine_labelled :
  forall line,
    statusLine line =
    if relevant (TrimSpace line) then (labelled (TrimSpace line), true) else ("", false).
Proof.
  intros line. unfold statusLine, relevant, labelled.
  destruct (Contains (TrimSpace line) "interface"); [reflexivity|].
  destruct (Contains (TrimSpace line) "latest handshake"); [reflexivity|].
  destruct (Contains (TrimSpace line) "transfer"); reflexivity.
Qed.

Lemma FilterMap_statusLine :
  forall lines,
    FilterMap lines statusLine = map labelled (List.filter relevant (map TrimSpace lines)).
Proof.
  induction lines as [|line rest IH]; [reflexivity|].
  simpl. rewrite statusLine_labelled.
  destruct (relevant (TrimSpace line)); simpl; rewrite IH; reflexivity.
Qed.

Lemma labelled_not_synthetic : forall line, labelled line <> synthetic.
Proof.
  intros line. unfold labelled, synthetic.
  destruct (Contains line "interface"); [|destruct (Contains line "latest handshake")];
    simpl; discriminate.
Qed.

Lemma extracted_no_synthetic :
  forall raw, count_occ string_dec (extracted raw) synthetic = 0%nat.
Proof.
  intros raw. apply count_occ_not_In. unfold extracted. intros Hin.
  apply in_map_iff in Hin. destruct Hin as (line & Heq & _).
  exact (labelled_not_synthetic line Heq).
Qed.

Lemma statusLines_summary :
  forall output, statusLines output = summary_spec (string_of_list_byte output).
Proof.
  intros output. unfold statusLines, summary_spec, extracted.
  rewrite FilterMap_statusLine.
  destruct (Nat.eqb _ 0); simpl; [rewrite app_nil_r|]; reflexivity.
Qed.

(** No line of the summary contains a line feed, so the joined text splits
    back into the same lines. *)

Lemma LFfree_String :
  forall c s, LFfree (String c s) <-> (Ascii.eqb c LF = false /\ LFfree s).
Proof.
  intros c s. unfold LFfree, noNewline. simpl.
  rewrite andb_true_iff, negb_true_iff. reflexivity.
Qed.

Lemma LFfree_append : forall a b, LFfree a -> LFfree b -> LFfree (a ++ b).
Proof.
  induction a as [|c a IH]; intros b Ha Hb; [exact Hb|].
  simpl. apply LFfree_String in Ha. destruct Ha as [Hc Ha].
  apply LFfree_String. split; [exact Hc | exact (IH b Ha Hb)].
Qed.

Lemma LFfree_substring :
  forall s n m, LFfree s -> LFfree (String.substring n m s).
Proof.
  induction s as [|c s IH]; intros n m Hs.
  - destruct n, m; reflexivity.
  - apply LFfree_String in Hs. destruct Hs as [Hc Hs].
    destruct n as [|n].
    + destruct m as [|m]; [reflexivity|]. simpl.
      apply LFfree_String. split; [exact Hc | exact (IH 0%nat m Hs)].
    + simpl. exact (IH n m Hs).
Qed.

Lemma LFfree_trimLeftSpace :
  forall fuel s, LFfree s -> LFfree (trimLeftSpace fuel s).
Proof.
  induction fuel as [|fuel IH]; intros s Hs; [exact Hs|]. cbn [trimLeftSpace].
  destruct (List.find (fun sp => HasPrefix s sp) unicodeSpaces); [|exact Hs].
  apply IH. unfold string_drop. apply LFfree_substring. exact Hs.
Qed.

Lemma LFfree_trimRightSpace :
  forall fuel s, LFfree s -> LFfree (trimRightSpace fuel s).
Proof.
  induction fuel as [|fuel IH]; intros s Hs; [exact Hs|]. cbn [trimRightSpace].
  destruct (List.find (fun sp => HasSuffix s sp) unicodeSpaces); [|exact Hs].
  apply IH. apply LFfree_substring. exact Hs.
Qed.

Lemma LFfree_TrimSpace : forall s, LFfree s -> LFfree (TrimSpace s).
Proof.
  intros s Hs. unfold TrimSpace. apply LFfree_trimRightSpace, LFfree_trimLeftSpace. exact Hs.
Qed.

Lemma LFfree_TrimPrefix : forall s p, LFfree s -> LFfree (TrimPrefix s p).
Proof.
  intros s p Hs. unfold TrimPrefix. destruct (HasPrefix s p); [|exact Hs].
  unfold string_drop. apply LFfree_substring. exact Hs.
Qed.

Lemma LFfree_labelled : forall line, LFfree line -> LFfree (labelled line).
Proof.
  intros line Hl. unfold labelled.
  destruct (Contains line "interface"); [|destruct (Contains line "latest handshake")];
    (apply LFfree_append; [reflexivity | apply LFfree_TrimPrefix; exact Hl]).
Qed.

Lemma Split_LFfree : forall s, List.Forall LFfree (Split s LF).
Proof.
  induction s as [|c s IH]; simpl.
  - constructor; [reflexivity | constructor].
  - destruct (Ascii.eqb c LF) eqn:Hc.
    + constructor; [reflexivity | exact IH].
    + destruct (Split s LF) as [|piece pieces].
      * constructor; [|constructor]. apply LFfree_String. split; [exact Hc | reflexivity].
      * inversion IH as [|? ? Hp Hps]; subst. constructor; [|exact Hps].
        apply LFfree_String. split; [exact Hc | exact Hp].
Qed.

Lemma extracted_LFfree : forall raw, List.Forall LFfree (extracted raw).
Proof.
  intros raw. unfold extracted. apply List.Forall_forall. intros x Hx.
  apply in_map_iff in Hx. destruct Hx as (line & <- & Hline).
  apply filter_In in Hline. destruct Hline as [Hline _].
  apply in_map_iff in Hline. destruct Hline as (src & <- & Hsrc).
  apply LFfree_labelled, LFfree_TrimSpace.
  exact (proj1 (List.Forall_forall _ _) (Split_LFfree raw) src Hsrc).
Qed.

Lemma statusLines_LFfree : forall output, List.Forall LFfree (statusLines output).
Proof.
  intros output. rewrite statusLines_summary. unfold summary_spec.
  apply List.Forall_app. split; [apply extracted_LFfree|].
  destruct (Nat.eqb _ 0); constructor; [reflexivity | constructor].
Qed.

Lemma Split_one : forall x, LFfree x -> Split x LF = [x].
Proof.
  induction x as [|c x IH]; intros Hx; [reflexivity|].
  apply LFfree_String in Hx. destruct Hx as [Hc Hx]. simpl.
  rewrite Hc, (IH Hx). reflexivity.
Qed.

Lemma Split_append_LF :
  forall x rest, LFfree x -> Split (x ++ String LF rest) LF = x :: Split rest LF.
Proof.
  induction x as [|c x IH]; intros rest Hx.
  - reflexivity.
  - apply LFfree_String in Hx. destruct Hx as [Hc Hx]. simpl.
    rewrite Hc, (IH rest Hx). reflexivity.
Qed.

Lemma Split_Join :
  forall lines,
    List.Forall LFfree lines ->
    Split (Join lines (String LF "")) LF = match lines with [] => [""] | _ => lines end.
Proof.
  unfold Join. induction lines as [|x rest IH]; intros Hall; [reflexivity|].
  inversion Hall as [|? ? Hx Hrest]; subst.
  destruct rest as [|y rest'].
  - simpl. apply Split_one. exact Hx.
  - change (String.concat (String LF "") (x :: y :: rest'))
      with (x ++ String LF (String.concat (String LF "") (y :: rest'))).
    rewrite (Split_append_LF _ _ Hx), (IH Hrest). reflexivity.
Qed.

Section StatusSummary.

Context {World : Type} (host : Host World).

(** C4. For every raw probe output, [GetStatus] joins the lines of
    [statusLines]: the trimmed source lines containing "interface",
    "latest handshake" or "transfer", relabelled, in source order,
    followed by exactly one synthetic line "Connection starting..." if and
    only if their number is not a multiple of three.  Three extracted
    lines give three lines and no synthetic one; two extracted lines give
    three lines, the last one synthetic.  The returned text, split at its
    line feeds, gives these lines back. *)
Theorem status_summary :
  forall (s s' : Sys World) (output : list byte),
    showStatus host s = (Ok output, s') ->
    let raw := string_of_list_byte output in
    let n := List.length (extracted raw) in
    GetStatus host s = (Ok (Join (statusLines output) (String LF "")), s') /\
    Split (Join (statusLines output) (String LF "")) LF =
      match statusLines output with [] => [""] | _ => statusLines output end /\
    statusLines output =
      (extracted raw ++ (if Nat.eqb (Nat.modulo n 3) 0 then [] else [synthetic]))%list /\
    count_occ string_dec (statusLines output) synthetic =
      (if Nat.eqb (Nat.modulo n 3) 0 then 0%nat else 1%nat) /\
    (n = 3%nat -> statusLines output = extracted raw) /\
    (n = 2%nat -> statusLines output = (extracted raw ++ [synthetic])%list /\
                  List.length (statusLines output) = 3%nat).
Proof.
  intros s s' output Hshow raw n.
  assert (Hsum : statusLines output =
           (extracted raw ++ (if Nat.eqb (Nat.modulo n 3) 0 then [] else [synthetic]))%list).
  { rewrite statusLines_summary. reflexivity. }
  split.
  { unfold GetStatus, bind_ok, bind. rewrite Hshow. reflexivity. }
  split; [exact (Split_Join _ (statusLines_LFfree output))|].
  split; [exact Hsum|].
  split.
  { rewrite Hsum, count_occ_app. fold raw. rewrite extracted_no_synthetic.
    destruct (Nat.eqb (Nat.modulo n 3) 0); simpl; [reflexivity|].
    destruct (string_dec synthetic synthetic) as [_|Hne]; [reflexivity | contradiction]. }
  split.
  { intros Hn. rewrite Hsum, Hn. simpl. apply app_nil_r. }
  intros Hn. rewrite Hsum, Hn. simpl. split; [reflexivity|].
  rewrite length_app. fold n. rewrite Hn. reflexivity.
Qed.

End StatusSummary.

Lemma sim_showStatus :
  forall w log,
    SimHost.wgDenied w = false ->
    showStatus SimHost.host {| world := w; invocations := log |}
    = (Ok (list_byte_of_string (SimHost.wgShow w)),
       {| world := w; invocations := (log ++ [wg_show])%list |}).
Proof.
  intros w log Hok. unfold showStatus, bind, exec. simpl. rewrite Hok. reflexivity.
Qed.

Example extracted_home_up :
  extracted (SimHost.wgShow SimHost.home_up)
  = ["Connection:  home"; "Latest Handshake:  12 seconds ago";
     "Transfer:  1.21 KiB received, 3.40 KiB sent"].
Proof. vm_compute. reflexivity. Qed.

Example extracted_home_starting :
  extracted (SimHost.wgShow SimHost.home_starting)
  = ["Connection:  home"; "Transfer:  1.21 KiB received, 3.40 KiB sent"].
Proof. vm_compute. reflexivity. Qed.

Lemma status_summary_witness :
  (showStatus SimHost.host (SimHost.boot SimHost.home_up)
   = (Ok (list_byte_of_string (SimHost.wgShow SimHost.home_up)),
      {| world := SimHost.home_up; invocations := [wg_show] |}) /\
   statusLines (list_byte_of_string (SimHost.wgShow SimHost.home_up))
   = extracted (string_of_list_byte (list_byte_of_string (SimHost.wgShow SimHost.home_up)))) /\
  (showStatus SimHost.host (SimHost.boot SimHost.home_starting)
   = (Ok (list_byte_of_string (SimHost.wgShow SimHost.home_starting)),
      {| world := SimHost.home_starting; invocations := [wg_show] |}) /\
   List.length (statusLines (list_byte_of_string (SimHost.wgShow SimHost.home_starting)))
   = 3%nat).
Proof.
  split.
  - split; [exact (sim_showStatus SimHost.home_up [] eq_refl)|].
    apply (status_summary SimHost.host _ _ _ (sim_showStatus SimHost.home_up [] eq_refl)).
    vm_compute. reflexivity.
  - split; [exact (sim_showStatus SimHost.home_starting [] eq_refl)|].
    apply (status_summary SimHost.host _ _ _ (sim_showStatus SimHost.home_starting [] eq_refl)).
    vm_compute. reflexivity.
Defined.

Example GetStatus_home_up :
  fst (GetStatus SimHost.host (SimHost.boot SimHost.home_up))
  = Ok ("Connection:  home" ++ SimHost.nl ++
        "Latest Handshake:  12 seconds ago" ++ SimHost.nl ++
        "Transfer:  1.21 KiB received, 3.40 KiB sent").
Proof. vm_compute. reflexivity. Qed.

Example GetStatus_home_starting :
  fst (GetStatus SimHost.host (SimHost.boot SimHost.home_starting))
  = Ok ("Connection:  home" ++ SimHost.nl ++
        "Transfer:  1.21 KiB received, 3.40 KiB sent" ++ SimHost.nl ++
        "Connection starting...").
Proof. vm_compute. reflexivity. Qed.

(** ** Listing connections *)

Lemma fold_left_append_map :
  forall (A B : Type) (f : A -> B) (l : list A) (init : list B),
    fold_left (fun acc x => (acc ++ [f x])%list) l init = (init ++ map f l)%list.
Proof.
  intros A B f l. induction l as [|x rest IH]; intros init; simpl.
  - symmetry. apply app_nil_r.
  - rewrite IH, <- app_assoc. reflexivity.
Qed.

Lemma slices_Contains_In :
  forall (s : list string) (v : string), slices_Contains s v = true <-> In v s.
Proof.
  intros s v. unfold slices_Contains. rewrite existsb_exists. split.
  - intros (x & Hin & Heq). apply String.eqb_eq in Heq. subst x. exact Hin.
  - intros Hin. exists v. split; [exact Hin | apply String.eqb_refl].
Qed.

Lemma connectionsOf_names :
  forall active all, map Name (connectionsOf active all) = all.
Proof.
  intros active all. unfold connectionsOf. rewrite map_map. simpl. apply map_id.
Qed.

Lemma connectionsOf_flag :
  forall active all c,
    In c (connectionsOf active all) -> (Active c = true <-> In (Name c) active).
Proof.
  intros active all c Hin. unfold connectionsOf in Hin.
  apply in_map_iff in Hin. destruct Hin as (n & <- & _). simpl.
  apply slices_Contains_In.
Qed.

Section Listing.

Context {World : Type} (host : Host World).

Lemma GetConnections_from_parts :
  forall (s s1 s2 : Sys World) (active all : list string),
    getActiveConnections host s = (Ok active, s1) ->
    getAllConnections host s1 = (Ok all, s2) ->
    GetConnections host s = (Ok (connectionsOf active all), s2).
Proof.
  intros s s1 s2 active all Hactive Hall.
  unfold GetConnections, bind_ok, bind. rewrite Hactive, Hall. unfold ret.
  rewrite fold_left_append_map. reflexivity.
Qed.

(** C3. For every inventory listing [all] and every list [active] of
    names reported by the prober, [GetConnections] returns one state per
    inventory entry, in the order of the inventory, whose flag is true
    exactly when the name is among the active names. *)
Theorem GetConnections_states :
  forall (s s1 s2 : Sys World) (active all : list string),
    getActiveConnections host s = (Ok active, s1) ->
    getAllConnections host s1 = (Ok all, s2) ->
    exists connections,
      GetConnections host s = (Ok connections, s2) /\
      map Name connections = all /\
      List.length connections = List.length all /\
      (forall i n, nth_error all i = Some n ->
         nth_error connections i = Some {| Name := n; Active := slices_Contains active n |}) /\
      (forall c, In c connections -> (Active c = true <-> In (Name c) active)).
Proof.
  intros s s1 s2 active all Hactive Hall.
  exists (connectionsOf active all).
  split; [exact (GetConnections_from_parts s s1 s2 active all Hactive Hall)|].
  split; [apply connectionsOf_names|].
  split; [unfold connectionsOf; apply length_map|].
  split; [|apply connectionsOf_flag].
  intros i n Hn. unfold connectionsOf. rewrite nth_error_map, Hn. reflexivity.
Qed.

End Listing.

Lemma GetConnections_states_witness :
  getActiveConnections SimHost.host (SimHost.boot SimHost.office_up)
  = (Ok ["office"], {| world := SimHost.office_up; invocations := [wg_show] |}) /\
  getAllConnections SimHost.host {| world := SimHost.office_up; invocations := [wg_show] |}
  = (Ok ["home"; "office"], {| world := SimHost.office_up; invocations := [wg_show] |}) /\
  exists connections,
    GetConnections SimHost.host (SimHost.boot SimHost.office_up)
    = (Ok connections, {| world := SimHost.office_up; invocations := [wg_show] |}) /\
    map Name connections = ["home"; "office"] /\
    List.length connections = 2%nat /\
    (forall i n, nth_error ["home"; "office"] i = Some n ->
       nth_error connections i
       = Some {| Name := n; Active := slices_Contains ["office"] n |}) /\
    (forall c, In c connections -> (Active c = true <-> In (Name c) ["office"])).
Proof.
  assert (Hactive : getActiveConnections SimHost.host (SimHost.boot SimHost.office_up)
                    = (Ok ["office"], {| world := SimHost.office_up; invocations := [wg_show] |}))
    by (vm_compute; reflexivity).
  assert (Hall : getAllConnections SimHost.host
                   {| world := SimHost.office_up; invocations := [wg_show] |}
                 = (Ok ["home"; "office"],
                    {| world := SimHost.office_up; invocations := [wg_show] |}))
    by (vm_compute; reflexivity).
  split; [exact Hactive|]. split; [exact Hall|].
  exact (GetConnections_states SimHost.host _ _ _ _ _ Hactive Hall).
Defined.

Example GetConnections_office_up :
  fst (GetConnections SimHost.host (SimHost.boot SimHost.office_up))
  = Ok [{| Name := "home"; Active := false |}; {| Name := "office"; Active := true |}].
Proof. vm_compute. reflexivity. Qed.

(** ** Toggling a connection *)

Lemma Filter_sole_active :
  forall (p : string -> bool) (x : string) (l : list string),
    List.NoDup l -> In x l ->
    (forall n, In n l -> (p n = true <-> n = x)) ->
    Filter (map (fun n => {| Name := n; Active := p n |}) l) (fun i => Active i)
    = [{| Name := x; Active := true |}].
Proof.
  intros p x l. unfold Filter. induction l as [|a rest IH]; intros Hnd Hin Hsole.
  - contradiction.
  - inversion Hnd as [|a' rest' Hnotin Hnd']; subst. simpl.
    destruct (String.eqb_spec a x) as [->|Hne].
    + assert (Hpx : p x = true) by (apply Hsole; [left|]; reflexivity).
      rewrite Hpx. f_equal.
      assert (Hnone : forall l', (forall n, In n l' -> p n = false) ->
                List.filter (fun i => Active i)
                  (map (fun n => {| Name := n; Active := p n |}) l') = []).
      { induction l' as [|b l' IHl']; intros Hf; [reflexivity|]. simpl.
        rewrite (Hf b) by (left; reflexivity).
        apply IHl'. intros n Hn. apply Hf. right. exact Hn. }
      apply Hnone. intros n Hn.
      destruct (p n) eqn:Hpn; [|reflexivity].
      apply Hsole in Hpn; [|right; exact Hn]. subst n. contradiction.
    + destruct Hin as [Heq|Hin]; [contradiction|].
      destruct (p a) eqn:Hpa.
      * apply Hsole in Hpa; [contradiction | left; reflexivity].
      * apply IH; [exact Hnd' | exact Hin |].
        intros n Hn. apply Hsole. right. exact Hn.
Qed.

Lemma Find_configured :
  forall (active all : list string) (x : string),
    In x all ->
    Find (connectionsOf active all) (fun dev => String.eqb (Name dev) x)
    = Some {| Name := x; Active := slices_Contains active x |}.
Proof.
  intros active all x. unfold Find, connectionsOf.
  induction all as [|a rest IH]; intros Hin; [contradiction|]. simpl.
  destruct (String.eqb_spec a x) as [->|Hne]; [reflexivity|].
  destruct Hin as [Heq|Hin]; [contradiction | exact (IH Hin)].
Qed.

Lemma Find_unknown :
  forall (active all : list string) (x : string),
    ~ In x all ->
    Find (connectionsOf active all) (fun dev => String.eqb (Name dev) x) = None.
Proof.
  intros active all x. unfold Find, connectionsOf.
  induction all as [|a rest IH]; intros Hnotin; [reflexivity|]. simpl.
  destruct (String.eqb_spec a x) as [->|Hne].
  - exfalso. apply Hnotin. left. reflexivity.
  - apply IH. intros Hin. apply Hnotin. right. exact Hin.
Qed.

Section Toggle.

Context {World : Type} (host : Host World).

Lemma exec_run :
  forall c argv (w0 : World) log r w',
    run host c argv w0 = (r, w') ->
    exec host c argv {| world := w0; invocations := log |}
    = (r, {| world := w'; invocations := (log ++ [argv])%list |}).
Proof. intros c argv w0 log r w' Hrun. unfold exec. simpl. rewrite Hrun. reflexivity. Qed.

Lemma showStatus_ok :
  forall (w0 : World) log out w',
    run host StdoutOnly wg_show w0 = ((out, None), w') ->
    showStatus host {| world := w0; invocations := log |}
    = (Ok out, {| world := w'; invocations := (log ++ [wg_show])%list |}).
Proof.
  intros w0 log out w' Hrun. unfold showStatus, bind.
  rewrite (exec_run _ _ _ log _ _ Hrun). reflexivity.
Qed.

Lemma showStatus_failed :
  forall (w0 : World) log out err w',
    run host StdoutOnly wg_show w0 = ((out, Some err), w') ->
    showStatus host {| world := w0; invocations := log |}
    = (Err (Wrapped "failed to execute wg show" err),
       {| world := w'; invocations := (log ++ [wg_show])%list |}).
Proof.
  intros w0 log out err w' Hrun. unfold showStatus, bind.
  rewrite (exec_run _ _ _ log _ _ Hrun). reflexivity.
Qed.

(** The scenario shared by the toggle properties: in world [w] the probe
    succeeds with output [out] and leaves the world as it is, and the
    listing of the configuration directory succeeds with [files]. *)
Variables (w : World) (out : list byte) (files : list string).
Hypothesis probe_ok : run host StdoutOnly wg_show w = ((out, None), w).
Hypothesis glob_ok : Glob host confPattern w = Ok files.

Lemma GetConnections_stable :
  forall log,
    GetConnections host {| world := w; invocations := log |}
    = (Ok (connectionsOf (activeNames out) (map configName files)),
       {| world := w; invocations := (log ++ [wg_show])%list |}).
Proof.
  intros log.
  apply (GetConnections_from_parts host _
           {| world := w; invocations := (log ++ [wg_show])%list |}).
  - unfold getActiveConnections, bind_ok, bind.
    rewrite (showStatus_ok w log out w probe_ok).
    reflexivity.
  - unfold getAllConnections, bind_ok, bind, glob. simpl. rewrite glob_ok. reflexivity.
Qed.

Lemma getConnection_configured :
  forall log name,
    In name (map configName files) ->
    getConnection host name {| world := w; invocations := log |}
    = (Ok {| Name := name; Active := slices_Contains (activeNames out) name |},
       {| world := w; invocations := (log ++ [wg_show])%list |}).
Proof.
  intros log name Hin. unfold getConnection, bind_ok, bind.
  rewrite GetConnections_stable, (Find_configured _ _ _ Hin). reflexivity.
Qed.

Lemma getConnection_unknown :
  forall log name,
    ~ In name (map configName files) ->
    getConnection host name {| world := w; invocations := log |}
    = (Err (Message ("failed to find connection: " ++ name)),
       {| world := w; invocations := (log ++ [wg_show])%list |}).
Proof.
  intros log name Hnotin. unfold getConnection, bind_ok, bind.
  rewrite GetConnections_stable, (Find_unknown _ _ _ Hnotin). reflexivity.
Qed.

(** C1. When "home" is the only configured tunnel the prober reports
    active and "office" is configured, [ToggleConnection "office"] runs,
    after the two status probes of its resolve phase, exactly
    [wg-quick down home] and then exactly [wg-quick up office], and
    returns the output of the first followed by the output of the second. *)
Theorem toggle_office_while_home_active :
  forall (log : list (list string)) (w1 w2 : World) (downOut upOut : list byte),
    List.NoDup (map configName files) ->
    In "home" (map configName files) ->
    In "office" (map configName files) ->
    (forall n, In n (map configName files) -> (In n (activeNames out) <-> n = "home")) ->
    run host StdoutAndStderr (wg_quick_down "home") w = ((downOut, None), w1) ->
    run host StdoutAndStderr (wg_quick_up "office") w1 = ((upOut, None), w2) ->
    ToggleConnection host "office" {| world := w; invocations := log |}
    = (Ok (downOut ++ upOut)%list,
       {| world := w2;
          invocations := (log ++ [wg_show; wg_show;
                                  wg_quick_down "home"; wg_quick_up "office"])%list |}).
Proof.
  intros log w1 w2 downOut upOut Hnd Hhome Hoffice Hsole Hdown Hup.
  assert (Hflag : forall n, In n (map configName files) ->
            (slices_Contains (activeNames out) n = true <-> n = "home")).
  { intros n Hn. rewrite slices_Contains_In. apply Hsole. exact Hn. }
  assert (Hoff : slices_Contains (activeNames out) "office" = false).
  { destruct (slices_Contains (activeNames out) "office") eqn:E; [|reflexivity].
    apply (Hflag "office" Hoffice) in E. discriminate E. }
  unfold ToggleConnection, bind_ok, bind.
  rewrite GetConnections_stable.
  rewrite (getConnection_configured _ "office" Hoffice), Hoff.
  unfold connectionsOf. rewrite (Filter_sole_active _ "home" _ Hnd Hhome Hflag).
  unfold stopActiveConnections, startConnection. simpl stopLoop. unfold bind.
  rewrite (exec_run _ _ _ _ _ _ Hdown). simpl.
  rewrite (exec_run _ _ _ _ _ _ Hup). simpl.
  unfold ret. rewrite <- !app_assoc. reflexivity.
Qed.

(** C7. When "home" is the only configured tunnel the prober reports
    active, [ToggleConnection "home"] runs, after the two status probes,
    exactly [wg-quick down home] and no [wg-quick up]: the target was
    resolved as active, so [startConnection] returns without running
    anything.  The net result: on every host whose commands do to the
    interfaces what [wg] and [wg-quick] do, if "home" was the only
    interface up before the toggle then no interface is up after it, a
    probe made afterwards finds no active name, and a listing made
    afterwards shows every tunnel inactive. *)
Theorem toggle_home_while_home_active :
  forall (log : list (list string)) (w1 : World) (downOut : list byte),
    List.NoDup (map configName files) ->
    In "home" (map configName files) ->
    (forall n, In n (map configName files) -> (In n (activeNames out) <-> n = "home")) ->
    run host StdoutAndStderr (wg_quick_down "home") w = ((downOut, None), w1) ->
    ToggleConnection host "home" {| world := w; invocations := log |}
    = (Ok downOut,
       {| world := w1;
          invocations := (log ++ [wg_show; wg_show; wg_quick_down "home"])%list |}) /\
    (forall up : World -> list string,
       Interfaces host up ->
       (forall m, In m (up w) <-> m = "home") ->
       let after := snd (ToggleConnection host "home" {| world := w; invocations := log |}) in
       (forall m, ~ In m (up (world after))) /\
       (forall names, fst (getActiveConnections host after) = Ok names -> names = []) /\
       (forall connections,
          fst (GetConnections host after) = Ok connections ->
          forall c, In c connections -> Active c = false)).
Proof.
  intros log w1 downOut Hnd Hhome Hsole Hdown.
  assert (Hflag : forall n, In n (map configName files) ->
            (slices_Contains (activeNames out) n = true <-> n = "home")).
  { intros n Hn. rewrite slices_Contains_In. apply Hsole. exact Hn. }
  assert (Hon : slices_Contains (activeNames out) "home" = true).
  { apply (Hflag "home" Hhome). reflexivity. }
  assert (Htoggle :
    ToggleConnection host "home" {| world := w; invocations := log |}
    = (Ok downOut,
       {| world := w1;
          invocations := (log ++ [wg_show; wg_show; wg_quick_down "home"])%list |})).
  { unfold ToggleConnection, bind_ok, bind.
    rewrite GetConnections_stable.
    rewrite (getConnection_configured _ "home" Hhome), Hon.
    unfold connectionsOf. rewrite (Filter_sole_active _ "home" _ Hnd Hhome Hflag).
    unfold stopActiveConnections, startConnection. simpl stopLoop. unfold bind.
    rewrite (exec_run _ _ _ _ _ _ Hdown). simpl.
    unfold ret. rewrite app_nil_r, <- !app_assoc. reflexivity. }
  split; [exact Htoggle|].
  intros up [Hprobe Hlaw] Hbefore after. subst after. rewrite Htoggle. cbn [snd world].
  assert (Hnone : forall m, ~ In m (up w1)).
  { intros m Hm. apply (Hlaw "home" w downOut w1 Hdown m) in Hm.
    destruct Hm as [Hin Hne]. apply Hne, Hbefore, Hin. }
  assert (Hactive : forall log' names,
            fst (getActiveConnections host {| world := w1; invocations := log' |})
            = Ok names -> names = []).
  { intros log' names. unfold getActiveConnections, bind_ok, bind.
    destruct (run host StdoutOnly wg_show w1) as [[o [e|]] w1'] eqn:Hp.
    - rewrite (showStatus_failed _ _ _ _ _ Hp). cbn [fst ret]. discriminate.
    - rewrite (showStatus_ok _ _ _ _ Hp). cbn [fst ret]. intros Heq.
      injection Heq as <-.
      destruct (activeNames o) as [|n rest] eqn:Hnames; [reflexivity|].
      exfalso. apply (Hnone n), (Hprobe w1 o w1' Hp n). rewrite Hnames. left. reflexivity. }
  split; [exact Hnone|]. split; [apply Hactive|].
  intros connections. unfold GetConnections, bind_ok, bind.
  destruct (getActiveConnections host _) as [[names|e] s1] eqn:Hnames;
    [|cbn [fst ret]; discriminate].
  assert (Hnil : names = []) by (eapply Hactive; rewrite Hnames; reflexivity).
  subst names.
  destruct (getAllConnections host s1) as [[all|e] s2]; [|cbn [fst ret]; discriminate].
  cbn [fst ret]. intros Heq. injection Heq as <-.
  rewrite fold_left_append_map. intros c Hc.
  apply in_map_iff in Hc. destruct Hc as (n & <- & _). reflexivity.
Qed.

(** C2 (amended). When "unknown" is not a configured tunnel and the
    status probe and the directory listing succeed, [ToggleConnection
    "unknown"] fails with the not-found error; it runs no [wg-quick]
    command, its only invocations being the two status probes of the
    resolve phase, and it leaves the host as it was. *)
Theorem toggle_unknown_not_found :
  forall (log : list (list string)),
    ~ In "unknown" (map configName files) ->
    ToggleConnection host "unknown" {| world := w; invocations := log |}
    = (Err (Message "failed to find connection: unknown"),
       {| world := w; invocations := (log ++ [wg_show; wg_show])%list |}).
Proof.
  intros log Hnotin. unfold ToggleConnection, bind_ok, bind.
  rewrite GetConnections_stable.
  rewrite (getConnection_unknown _ "unknown" Hnotin).
  unfold ret. rewrite <- !app_assoc. reflexivity.
Qed.

Lemma stopLoop_all_ok :
  forall (names : list string) (active : list string) (w0 w1 : World)
         (log : list (list string)) (acc outs : list byte),
    deactivations host names w0 = Some (outs, w1) ->
    stopLoop host (connectionsOf active names) acc {| world := w0; invocations := log |}
    = (Ok (acc ++ outs)%list,
       {| world := w1; invocations := (log ++ map wg_quick_down names)%list |}).
Proof.
  induction names as [|n rest IH]; intros active w0 w1 log acc outs Hd; simpl in Hd.
  - injection Hd as <- <-. simpl. unfold ret. rewrite !app_nil_r. reflexivity.
  - destruct (run host StdoutAndStderr (wg_quick_down n) w0) as [[o [e|]] wa] eqn:Hrun;
      [discriminate Hd|].
    destruct (deactivations host rest wa) as [[os wb]|] eqn:Hrest; [|discriminate Hd].
    injection Hd as <- <-.
    simpl. unfold bind. rewrite (exec_run _ _ _ _ _ _ Hrun). simpl.
    fold (connectionsOf active rest).
    rewrite (IH active wa wb _ _ os Hrest), <- !app_assoc. reflexivity.
Qed.

Lemma Filter_connectionsOf :
  forall active all,
    Filter (connectionsOf active all) (fun i => Active i)
    = connectionsOf active (List.filter (slices_Contains active) all).
Proof.
  intros active all. unfold Filter, connectionsOf.
  induction all as [|n rest IH]; [reflexivity|]. simpl.
  destruct (slices_Contains active n) eqn:Hn; simpl; rewrite IH, ?Hn; reflexivity.
Qed.

(** X15. When every deactivation succeeds and the activation of the target
    fails, the toggle returns the error of the failed command as it is and
    nothing else: the bytes the failed command printed ([upOut]) and the
    outputs of the deactivations are not part of the result.  No command is
    run after the failed one, so the host stays in the world the failed
    activation left. *)
Lemma toggle_activation_failed :
  forall (log : list (list string)) (name : string) (w1 w2 : World)
         (downOuts upOut : list byte) (err : error),
    In name (map configName files) ->
    slices_Contains (activeNames out) name = false ->
    deactivations host
      (List.filter (slices_Contains (activeNames out)) (map configName files)) w
    = Some (downOuts, w1) ->
    run host StdoutAndStderr (wg_quick_up name) w1 = ((upOut, Some err), w2) ->
    ToggleConnection host name {| world := w; invocations := log |}
    = (Err err,
       {| world := w2;
          invocations :=
            (log ++ [wg_show; wg_show]
                 ++ map wg_quick_down
                      (List.filter (slices_Contains (activeNames out)) (map configName files))
                 ++ [wg_quick_up name])%list |}).
Proof.
  intros log name w1 w2 downOuts upOut err Hname Hoff Hdowns Hup.
  unfold ToggleConnection, bind_ok, bind.
  rewrite GetConnections_stable.
  rewrite (getConnection_configured _ name Hname), Hoff.
  rewrite Filter_connectionsOf.
  unfold stopActiveConnections, startConnection.
  rewrite (stopLoop_all_ok _ _ _ _ _ _ _ Hdowns). simpl. unfold bind.
  rewrite (exec_run _ _ _ _ _ _ Hup). simpl.
  unfold ret. rewrite <- !app_assoc. reflexivity.
Qed.

(** X14. A toggle to a configured, inactive target, with any number of
    active tunnels: after the two status probes every active configured
    tunnel is deactivated, in listing order, then the target is activated;
    the result is the outputs of the deactivations, in that order, followed
    by the output of the activation. *)
Lemma toggle_switch :
  forall (log : list (list string)) (name : string) (w1 w2 : World)
         (downOuts upOut : list byte),
    In name (map configName files) ->
    slices_Contains (activeNames out) name = false ->
    deactivations host
      (List.filter (slices_Contains (activeNames out)) (map configName files)) w
    = Some (downOuts, w1) ->
    run host StdoutAndStderr (wg_quick_up name) w1 = ((upOut, None), w2) ->
    ToggleConnection host name {| world := w; invocations := log |}
    = (Ok (downOuts ++ upOut)%list,
       {| world := w2;
          invocations :=
            (log ++ [wg_show; wg_show]
                 ++ map wg_quick_down
                      (List.filter (slices_Contains (activeNames out)) (map configName files))
                 ++ [wg_quick_up name])%list |}).
Proof.
  intros log name w1 w2 downOuts upOut Hname Hoff Hdowns Hup.
  unfold ToggleConnection, bind_ok, bind.
  rewrite GetConnections_stable.
  rewrite (getConnection_configured _ name Hname), Hoff.
  rewrite Filter_connectionsOf.
  unfold stopActiveConnections, startConnection.
  rewrite (stopLoop_all_ok _ _ _ _ _ _ _ Hdowns). simpl. unfold bind.
  rewrite (exec_run _ _ _ _ _ _ Hup). simpl.
  unfold ret. rewrite <- !app_assoc. reflexivity.
Qed.

(** A deactivation that fails ends the loop: the error is returned and no
    further command is run. *)
Lemma stopLoop_first_failure :
  forall (c : WireGuardConnection) (rest : list WireGuardConnection) (w0 w1 : World)
         (log : list (list string)) (acc o : list byte) (err : error),
    run host StdoutAndStderr (wg_quick_down (Name c)) w0 = ((o, Some err), w1) ->
    stopLoop host (c :: rest) acc {| world := w0; invocations := log |}
    = (Err err, {| world := w1; invocations := (log ++ [wg_quick_down (Name c)])%list |}).
Proof.
  intros c rest w0 w1 log acc o err Hrun. simpl. unfold bind.
  rewrite (exec_run _ _ _ _ _ _ Hrun). reflexivity.
Qed.

End Toggle.

Section ToggleProbeFailure.

Context {World : Type} (host : Host World).

(** X16. A failing status probe ends the toggle at once with the wrapped
    error of the probe: one command has been run, the inventory is not
    listed, and no tunnel is touched. *)
Lemma toggle_probe_failed :
  forall (name : string) (w w' : World) (log : list (list string))
         (out : list byte) (err : error),
    run host StdoutOnly wg_show w = ((out, Some err), w') ->
    ToggleConnection host name {| world := w; invocations := log |}
    = (Err (Wrapped "failed to execute wg show" err),
       {| world := w'; invocations := (log ++ [wg_show])%list |}).
Proof.
  intros name w w' log out err Hprobe.
  unfold ToggleConnection, GetConnections, getActiveConnections, bind_ok, bind.
  rewrite (showStatus_failed host _ _ _ _ _ Hprobe). reflexivity.
Qed.

End ToggleProbeFailure.

(** ** The toggle properties on the simulated host *)

Module SimFacts.
Import SimHost.

Lemma names_home_office : map configName (confs home_up) = ["home"; "office"].
Proof. vm_compute. reflexivity. Qed.

Lemma active_home_up : activeNames (probe home_up) = ["home"].
Proof. vm_compute. reflexivity. Qed.

Lemma NoDup_home_office : List.NoDup ["home"; "office"].
Proof.
  constructor.
  - simpl. intros [H|[]]. discriminate H.
  - constructor; [simpl; tauto | constructor].
Qed.

Lemma sole_home :
  forall n, In n ["home"; "office"] -> (In n ["home"] <-> n = "home").
Proof. intros n _. simpl. split; [intros [H|[]]; congruence | intros ->; left; reflexivity]. Qed.

Lemma unknown_not_configured : ~ In "unknown" ["home"; "office"].
Proof. simpl. intros [H|[H|[]]]; discriminate H. Qed.

End SimFacts.

Lemma toggle_office_while_home_active_witness :
  run SimHost.host StdoutOnly wg_show SimHost.home_up
  = ((SimHost.probe SimHost.home_up, None), SimHost.home_up) /\
  Glob SimHost.host confPattern SimHost.home_up = Ok (SimHost.confs SimHost.home_up) /\
  List.NoDup (map configName (SimHost.confs SimHost.home_up)) /\
  In "home" (map configName (SimHost.confs SimHost.home_up)) /\
  In "office" (map configName (SimHost.confs SimHost.home_up)) /\
  (forall n, In n (map configName (SimHost.confs SimHost.home_up)) ->
     (In n (activeNames (SimHost.probe SimHost.home_up)) <-> n = "home")) /\
  run SimHost.host StdoutAndStderr (wg_quick_down "home") SimHost.home_up
  = ((SimHost.downOutput "home", None), SimHost.all_down) /\
  run SimHost.host StdoutAndStderr (wg_quick_up "office") SimHost.all_down
  = ((SimHost.upOutput "office", None), SimHost.office_up) /\
  ToggleConnection SimHost.host "office" (SimHost.boot SimHost.home_up)
  = (Ok (SimHost.downOutput "home" ++ SimHost.upOutput "office")%list,
     {| world := SimHost.office_up;
        invocations := [wg_show; wg_show; wg_quick_down "home"; wg_quick_up "office"] |}).
Proof.
  rewrite SimFacts.names_home_office, SimFacts.active_home_up.
  split; [reflexivity|]. split; [reflexivity|].
  split; [exact SimFacts.NoDup_home_office|].
  split; [left; reflexivity|]. split; [right; left; reflexivity|].
  split; [exact SimFacts.sole_home|].
  split; [reflexivity|]. split; [reflexivity|].
  apply (toggle_office_while_home_active SimHost.host SimHost.home_up
           (SimHost.probe SimHost.home_up) (SimHost.confs SimHost.home_up)
           eq_refl eq_refl [] SimHost.all_down SimHost.office_up).
  - rewrite SimFacts.names_home_office. exact SimFacts.NoDup_home_office.
  - rewrite SimFacts.names_home_office. left. reflexivity.
  - rewrite SimFacts.names_home_office. right. left. reflexivity.
  - rewrite SimFacts.names_home_office, SimFacts.active_home_up. exact SimFacts.sole_home.
  - reflexivity.
  - reflexivity.
Defined.

(** The two-tunnel host does to its interfaces what [wg] and [wg-quick]
    do. *)
Lemma PairHost_probe : forall w, activeNames (PairHost.wgShow w) = PairHost.up w.
Proof. intros [[|] [|]]; vm_compute; reflexivity. Qed.

Lemma PairHost_names : map configName PairHost.confs = ["home"; "office"].
Proof. vm_compute. reflexivity. Qed.

Lemma PairHost_interfaces : Interfaces PairHost.host PairHost.up.
Proof.
  split.
  - intros w out w' Hrun n.
    change (run PairHost.host StdoutOnly wg_show w)
      with ((PairHost.wgShow w, @None error), w) in Hrun.
    injection Hrun as <- <-. rewrite PairHost_probe. reflexivity.
  - intros n w out w' Hrun m.
    change (run PairHost.host StdoutAndStderr (wg_quick_down n) w)
      with (PairHost.wgQuick false n w) in Hrun.
    unfold PairHost.wgQuick, PairHost.refused, PairHost.changed in Hrun.
    destruct w as [h o]. cbn [PairHost.home PairHost.office] in Hrun.
    destruct (String.eqb_spec n "home") as [->|Hhome].
    + destruct h; cbn [Bool.eqb] in Hrun; [|discriminate Hrun].
      injection Hrun as <- <-. unfold PairHost.up. cbn [PairHost.home PairHost.office].
      destruct o; simpl; split.
      * intros [<-|[]]. split; [right; left; reflexivity | discriminate].
      * intros [[<-|[<-|[]]] Hne]; [contradiction | left; reflexivity].
      * intros [].
      * intros [[<-|[]] Hne]. contradiction.
    + destruct (String.eqb_spec n "office") as [->|Hoffice]; [|discriminate Hrun].
      destruct o; cbn [Bool.eqb] in Hrun; [|discriminate Hrun].
      injection Hrun as <- <-. unfold PairHost.up. cbn [PairHost.home PairHost.office].
      destruct h; simpl; split.
      * intros [<-|[]]. split; [left; reflexivity | discriminate].
      * intros [[<-|[<-|[]]] Hne]; [left; reflexivity | contradiction].
      * intros [].
      * intros [[<-|[]] Hne]. contradiction.
Qed.

Lemma toggle_home_while_home_active_witness :
  run PairHost.host StdoutOnly wg_show PairHost.home_only
  = ((PairHost.wgShow PairHost.home_only, None), PairHost.home_only) /\
  Glob PairHost.host confPattern PairHost.home_only = Ok PairHost.confs /\
  List.NoDup (map configName PairHost.confs) /\
  In "home" (map configName PairHost.confs) /\
  (forall n, In n (map configName PairHost.confs) ->
     (In n (activeNames (PairHost.wgShow PairHost.home_only)) <-> n = "home")) /\
  run PairHost.host StdoutAndStderr (wg_quick_down "home") PairHost.home_only
  = (PairHost.changed "home", PairHost.both_down) /\
  Interfaces PairHost.host PairHost.up /\
  (forall m, In m (PairHost.up PairHost.home_only) <-> m = "home") /\
  ToggleConnection PairHost.host "home"
    {| world := PairHost.home_only; invocations := [] |}
  = (Ok (fst (PairHost.changed "home")),
     {| world := PairHost.both_down;
        invocations := [wg_show; wg_show; wg_quick_down "home"] |}) /\
  (forall m,
     ~ In m (PairHost.up
               (world (snd (ToggleConnection PairHost.host "home"
                              {| world := PairHost.home_only; invocations := [] |}))))) /\
  (forall connections,
     fst (GetConnections PairHost.host
            (snd (ToggleConnection PairHost.host "home"
                    {| world := PairHost.home_only; invocations := [] |})))
     = Ok connections ->
     forall c, In c connections -> Active c = false).
Proof.
  assert (Hnd : List.NoDup (map configName PairHost.confs))
    by (rewrite PairHost_names; exact SimFacts.NoDup_home_office).
  assert (Hhome : In "home" (map configName PairHost.confs))
    by (rewrite PairHost_names; left; reflexivity).
  assert (Hsole : forall n, In n (map configName PairHost.confs) ->
            (In n (activeNames (PairHost.wgShow PairHost.home_only)) <-> n = "home"))
    by (rewrite PairHost_names, PairHost_probe; exact SimFacts.sole_home).
  assert (Hbefore : forall m, In m (PairHost.up PairHost.home_only) <-> m = "home").
  { intros m. simpl. split; [intros [H|[]]; congruence | intros ->; left; reflexivity]. }
  destruct (toggle_home_while_home_active PairHost.host PairHost.home_only
              (PairHost.wgShow PairHost.home_only) PairHost.confs
              eq_refl eq_refl [] PairHost.both_down (fst (PairHost.changed "home"))
              Hnd Hhome Hsole eq_refl) as [Htoggle Hnet].
  destruct (Hnet PairHost.up PairHost_interfaces Hbefore) as (Hnone & _ & Hlisting).
  split; [reflexivity|]. split; [reflexivity|]. split; [exact Hnd|].
  split; [exact Hhome|]. split; [exact Hsole|]. split; [reflexivity|].
  split; [exact PairHost_interfaces|]. split; [exact Hbefore|].
  split; [exact Htoggle|]. split; [exact Hnone | exact Hlisting].
Defined.

Lemma toggle_unknown_not_found_witness :
  run SimHost.host StdoutOnly wg_show SimHost.home_up
  = ((SimHost.probe SimHost.home_up, None), SimHost.home_up) /\
  Glob SimHost.host confPattern SimHost.home_up = Ok (SimHost.confs SimHost.home_up) /\
  ~ In "unknown" (map configName (SimHost.confs SimHost.home_up)) /\
  ToggleConnection SimHost.host "unknown" (SimHost.boot SimHost.home_up)
  = (Err (Message "failed to find connection: unknown"),
     {| world := SimHost.home_up; invocations := [wg_show; wg_show] |}).
Proof.
  assert (Hnotin : ~ In "unknown" (map configName (SimHost.confs SimHost.home_up)))
    by (rewrite SimFacts.names_home_office; exact SimFacts.unknown_not_configured).
  split; [reflexivity|]. split; [reflexivity|]. split; [exact Hnotin|].
  exact (toggle_unknown_not_found SimHost.host SimHost.home_up
           (SimHost.probe SimHost.home_up) (SimHost.confs SimHost.home_up)
           eq_refl eq_refl [] Hnotin).
Defined.

(** C2, as stated, fails on the host where home and office are configured:
    "unknown" is not in the inventory, yet the toggle runs [sudo wg show]
    twice before it reports the missing connection; and where the probe
    itself fails, the error returned is the probe's, not the not-found
    error. *)
Lemma toggle_unknown_counterexample :
  (~ In "unknown" (map configName (SimHost.confs SimHost.home_up)) /\
   invocations (snd (ToggleConnection SimHost.host "unknown" (SimHost.boot SimHost.home_up)))
   = [["sudo"; "wg"; "show"]; ["sudo"; "wg"; "show"]] /\
   invocations (snd (ToggleConnection SimHost.host "unknown" (SimHost.boot SimHost.home_up)))
   <> []) /\
  (~ In "unknown" (map configName (SimHost.confs SimHost.probe_denied)) /\
   fst (ToggleConnection SimHost.host "unknown" (SimHost.boot SimHost.probe_denied))
   = Err (Wrapped "failed to execute wg show" (External "exit status 1")) /\
   fst (ToggleConnection SimHost.host "unknown" (SimHost.boot SimHost.probe_denied))
   <> Err (Message "failed to find connection: unknown")).
Proof.
  assert (Hnotin : ~ In "unknown" (map configName (SimHost.confs SimHost.home_up)))
    by (rewrite SimFacts.names_home_office; exact SimFacts.unknown_not_configured).
  split.
  - split; [exact Hnotin|].
    assert (Hlog : invocations (snd (ToggleConnection SimHost.host "unknown"
                                       (SimHost.boot SimHost.home_up)))
                   = [["sudo"; "wg"; "show"]; ["sudo"; "wg"; "show"]])
      by (vm_compute; reflexivity).
    split; [exact Hlog|]. rewrite Hlog. discriminate.
  - split; [exact Hnotin|].
    assert (Herr : fst (ToggleConnection SimHost.host "unknown"
                          (SimHost.boot SimHost.probe_denied))
                   = Err (Wrapped "failed to execute wg show" (External "exit status 1")))
      by (vm_compute; reflexivity).
    split; [exact Herr|]. rewrite Herr. discriminate.
Qed.

(** C8 at the failing input: home is up, office is configured, and
    [wg-quick up office] exits with status 1 after printing three lines.
    The toggle deactivates home, returns the error of the failed command
    and no bytes; no interface is up afterwards and nothing is rolled back;
    the handler logs an empty output and answers with the error text
    alone. *)
Theorem toggle_activation_failure_drops_output :
  run SimHost.host StdoutAndStderr (wg_quick_up "office") SimHost.office_broken_down
  = ((SimHost.upFailure "office", Some SimHost.exitStatus1), SimHost.office_broken_down) /\
  SimHost.upFailure "office" <> [] /\
  ToggleConnection SimHost.host "office" (SimHost.boot SimHost.office_broken)
  = (Err SimHost.exitStatus1,
     {| world := SimHost.office_broken_down;
        invocations := [wg_show; wg_show; wg_quick_down "home"; wg_quick_up "office"] |}) /\
  outputOf (fst (ToggleConnection SimHost.host "office" (SimHost.boot SimHost.office_broken)))
  = [] /\
  SimHost.up (world (snd (ToggleConnection SimHost.host "office"
                            (SimHost.boot SimHost.office_broken)))) = [] /\
  logged (fst (handleToggleAPI SimHost.host "office" (SimHost.boot SimHost.office_broken)))
  = ["Error toggling connection office: exit status 1 (output: )"] /\
  ErrorText (fst (handleToggleAPI SimHost.host "office" (SimHost.boot SimHost.office_broken)))
  = "exit status 1".
Proof.
  split; [reflexivity|].
  split; [vm_compute; discriminate|].
  assert (Htoggle :
    ToggleConnection SimHost.host "office" (SimHost.boot SimHost.office_broken)
    = (Err SimHost.exitStatus1,
       {| world := SimHost.office_broken_down;
          invocations := [wg_show; wg_show; wg_quick_down "home"; wg_quick_up "office"] |}))
    by (vm_compute; reflexivity).
  split; [exact Htoggle|]. rewrite Htoggle. simpl.
  split; [reflexivity|]. split; [reflexivity|].
  split; vm_compute; reflexivity.
Qed.

Example toggle_transcript_office :
  fst (handleToggleAPI SimHost.host "office" (SimHost.boot SimHost.home_up))
  = {| logged := []; statusCode := 200; Success := true; ErrorText := "";
       Data := [("message", "Connection office toggled successfully");
                ("output", "[#] ip link delete dev home" ++ SimHost.nl ++
                           "[#] ip link add office type wireguard" ++ SimHost.nl)] |}.
Proof. vm_compute. reflexivity. Qed.

(** * Further properties of the code *)

(** ** Hexadecimal tokens and digests *)

Lemma hex_pair_decodes :
  forall b : byte,
    hexval (hexdigit (Z.shiftr (Z_of_byte b) 4)) = Some (Z.shiftr (Z_of_byte b) 4) /\
    hexval (hexdigit (Z.land (Z_of_byte b) 15)) = Some (Z.land (Z_of_byte b) 15) /\
    byte_of_Z (Z.shiftr (Z_of_byte b) 4 * 16 + Z.land (Z_of_byte b) 15) = b /\
    isHexLower (hexdigit (Z.shiftr (Z_of_byte b) 4)) = true /\
    isHexLower (hexdigit (Z.land (Z_of_byte b) 15)) = true.
Proof. intros b. destruct b; vm_compute; repeat split; reflexivity. Qed.

Lemma decodeLower_EncodeToString :
  forall bytes, decodeLower (EncodeToString bytes) = Some bytes.
Proof.
  induction bytes as [|b rest IH]; [reflexivity|].
  destruct (hex_pair_decodes b) as (Hh & Hl & Hb & _).
  cbn [EncodeToString decodeLower]. rewrite Hh, Hl, IH, Hb. reflexivity.
Qed.

Lemma EncodeToString_length :
  forall bytes, String.length (EncodeToString bytes) = (2 * List.length bytes)%nat.
Proof.
  induction bytes as [|b rest IH]; [reflexivity|].
  cbn [EncodeToString String.length List.length]. rewrite IH. lia.
Qed.

Lemma EncodeToString_hex :
  forall bytes, forallb isHexLower (chars (EncodeToString bytes)) = true.
Proof.
  induction bytes as [|b rest IH]; [reflexivity|].
  destruct (hex_pair_decodes b) as (_ & _ & _ & Hh & Hl).
  cbn [EncodeToString chars list_ascii_of_string forallb].
  unfold chars in IH. rewrite Hh, Hl, IH. reflexivity.
Qed.

(** X1. From the bytes the random source delivers, [generateSecureToken]
    returns a token with two lower-case hexadecimal digits per byte, from
    which the bytes can be read back. *)
Theorem generateSecureToken_shape :
  forall bytes : list byte,
    exists token : string,
      generateSecureToken (Ok bytes) = Ok token /\
      String.length token = (2 * List.length bytes)%nat /\
      forallb isHexLower (chars token) = true /\
      decodeLower token = Some bytes.
Proof.
  intros bytes. exists (EncodeToString bytes).
  split; [reflexivity|].
  split; [apply EncodeToString_length|].
  split; [apply EncodeToString_hex | apply decodeLower_EncodeToString].
Qed.

Lemma EncodeToString_injective :
  forall b1 b2, EncodeToString b1 = EncodeToString b2 -> b1 = b2.
Proof.
  intros b1 b2 Heq.
  assert (H : Some b1 = Some b2)
    by (rewrite <- (decodeLower_EncodeToString b1), <- (decodeLower_EncodeToString b2), Heq;
        reflexivity).
  injection H as H. exact H.
Qed.

Lemma CreateSession_with_entropy :
  forall (bytes : list byte) (now : Z) (sm : SessionManager),
    CreateSession (Ok bytes) now sm
    = (Ok (EncodeToString bytes, now + Hour),
       {| sessions := <[EncodeToString bytes := {| Expires := now + Hour |}]> (sessions sm) |}).
Proof.
  intros bytes now sm.
  unfold CreateSession, generateSecureToken, bind, modify, ret.
  replace (now + 1 * Hour) with (now + Hour) by (unfold Hour; lia). reflexivity.
Qed.

(** X2. Two sessions created from different random buffers get different
    tokens, so the second creation does not replace the first: both tokens
    are in the store afterwards, each with its own expiry. *)
Theorem sessions_from_distinct_entropy :
  forall (b1 b2 : list byte) (now1 now2 : Z) (sm : SessionManager),
    b1 <> b2 ->
    let c1 := CreateSession (Ok b1) now1 sm in
    let c2 := CreateSession (Ok b2) now2 (snd c1) in
    fst c1 = Ok (EncodeToString b1, now1 + Hour) /\
    fst c2 = Ok (EncodeToString b2, now2 + Hour) /\
    EncodeToString b1 <> EncodeToString b2 /\
    sessions (snd c2) !! EncodeToString b1 = Some {| Expires := now1 + Hour |} /\
    sessions (snd c2) !! EncodeToString b2 = Some {| Expires := now2 + Hour |}.
Proof.
  intros b1 b2 now1 now2 sm Hne c1 c2.
  assert (Htok : EncodeToString b1 <> EncodeToString b2)
    by (intros Heq; apply Hne, EncodeToString_injective, Heq).
  subst c1 c2. rewrite !CreateSession_with_entropy. cbn [fst snd sessions].
  split; [reflexivity|]. split; [reflexivity|]. split; [exact Htok|].
  split.
  - rewrite lookup_insert_ne by (intros Heq; apply Htok; symmetry; exact Heq).
    apply lookup_insert_eq.
  - apply lookup_insert_eq.
Qed.

Lemma sessions_from_distinct_entropy_witness :
  repeat x00 32 <> repeat xff 32 /\
  sessions (snd (CreateSession (Ok (repeat xff 32)) 7
                   (snd (CreateSession (Ok (repeat x00 32)) 0 NewSessionManager))))
    !! EncodeToString (repeat x00 32)
  = Some {| Expires := 0 + Hour |}.
Proof.
  assert (Hne : repeat x00 32 <> repeat xff 32) by (simpl; discriminate).
  split; [exact Hne|].
  exact (proj1 (proj2 (proj2 (proj2
           (sessions_from_distinct_entropy (repeat x00 32) (repeat xff 32) 0 7
              NewSessionManager Hne))))).
Defined.

(** ** The shape of password digests *)

Lemma round_length :
  forall st kw, List.length (SHA256.round st kw) = List.length st.
Proof.
  intros st kw. unfold SHA256.round.
  destruct st as [|a [|b [|c [|d [|e [|f [|g [|h [|i r]]]]]]]]]; reflexivity.
Qed.

Lemma rounds_length :
  forall kws st, List.length (fold_left SHA256.round kws st) = List.length st.
Proof.
  induction kws as [|kw kws IH]; intros st; [reflexivity|].
  simpl. rewrite IH. apply round_length.
Qed.

Lemma compress_length :
  forall st block, List.length (SHA256.compress st block) = List.length st.
Proof.
  intros st block. unfold SHA256.compress, SHA256.zip_add.
  rewrite length_map, length_combine, rounds_length. apply Nat.min_id.
Qed.

Lemma compress_all_length :
  forall blocks st, List.length (fold_left SHA256.compress blocks st) = List.length st.
Proof.
  induction blocks as [|b blocks IH]; intros st; [reflexivity|].
  simpl. rewrite IH. apply compress_length.
Qed.

Lemma be_bytes_length : forall n x, List.length (SHA256.be_bytes n x) = n.
Proof. induction n as [|n IH]; intros x; [reflexivity|]. simpl. rewrite IH. reflexivity. Qed.

Lemma flat_be_bytes_length :
  forall st, List.length (flat_map (SHA256.be_bytes 4) st) = (4 * List.length st)%nat.
Proof.
  induction st as [|x st IH]; [reflexivity|].
  cbn [flat_map]. rewrite length_app, be_bytes_length, IH. simpl. lia.
Qed.

Lemma Sum256_length : forall data, List.length (SHA256.Sum256 data) = 32%nat.
Proof.
  intros data. unfold SHA256.Sum256.
  rewrite length_map, flat_be_bytes_length, compress_all_length. reflexivity.
Qed.

(** [SHA256.Sum256] returns the published digest on each of the published
    messages, and [GeneratePasswordHash] the stored hash of each of the
    sample passwords. *)
Lemma Sum256_known_answers : agrees_on SHA256.Sum256 known_answers.
Proof. unfold agrees_on, known_answers. repeat constructor; vm_compute; reflexivity. Qed.

Lemma GeneratePasswordHash_known_hashes :
  List.Forall (fun kv => GeneratePasswordHash (fst kv) = snd kv) known_hashes.
Proof. unfold known_hashes. repeat constructor; vm_compute; reflexivity. Qed.



(** X3. Whatever the password, [GeneratePasswordHash] returns 64 lower-case
    hexadecimal digits. *)
Theorem GeneratePasswordHash_shape :
  forall password : string,
    String.length (GeneratePasswordHash password) = 64%nat /\
    forallb isHexLower (chars (GeneratePasswordHash password)) = true.
Proof.
  intros password. unfold GeneratePasswordHash. split.
  - rewrite EncodeToString_length, Sum256_length. reflexivity.
  - apply EncodeToString_hex.
Qed.

(** X4. [ValidatePassword] accepts no password against a stored hash that
    is not 64 characters long or holds a character other than a lower-case
    hexadecimal digit; in particular an empty or upper-case hash locks
    everybody out. *)
Theorem ValidatePassword_malformed_hash :
  forall password hash : string,
    String.length hash <> 64%nat \/ forallb isHexLower (chars hash) = false ->
    ValidatePassword password hash = false.
Proof.
  intros password hash Hbad.
  destruct (ValidatePassword password hash) eqn:Hv; [|reflexivity].
  apply ValidatePassword_iff in Hv. subst hash. unfold GeneratePasswordHash in Hbad.
  destruct Hbad as [Hbad|Hbad].
  - rewrite EncodeToString_length, Sum256_length in Hbad. exfalso. apply Hbad. reflexivity.
  - rewrite EncodeToString_hex in Hbad. discriminate Hbad.
Qed.

Lemma ValidatePassword_malformed_hash_witness :
  (String.length "" <> 64%nat \/ forallb isHexLower (chars "") = false) /\
  ValidatePassword "hunter2" "" = false /\
  ValidatePassword "hunter2"
    "B6FF43379B25B8EE6A4FCB150C0924842CF00965925494C59FE1655304592D22" = false.
Proof.
  assert (H0 : String.length "" <> 64%nat \/ forallb isHexLower (chars "") = false)
    by (left; simpl; discriminate).
  split; [exact H0|].
  split; [exact (ValidatePassword_malformed_hash "hunter2" "" H0)|].
  apply (ValidatePassword_malformed_hash "hunter2"). right. vm_compute. reflexivity.
Defined.

(** ** The session store beyond single calls *)

Lemma valid_at_lookup :
  forall now t sm,
    valid_at now t sm = true <->
    exists s, sessions sm !! t = Some s /\ now <= Expires s.
Proof.
  intros now t sm. unfold valid_at. rewrite ValidateSession_unfold. simpl.
  destruct (sessions sm !! t) as [s|].
  - destruct (After now (Expires s)) eqn:Ha; simpl.
    + apply After_true in Ha. split; [discriminate|].
      intros (s' & Hs & Hle). injection Hs as <-. lia.
    + apply After_false in Ha. split; [|reflexivity].
      intros _. exists s. split; [reflexivity | exact Ha].
  - simpl. split; [discriminate|]. intros (s' & Hs & _). discriminate Hs.
Qed.

(** X5. The sweep never changes what validation answers from the time of
    the sweep on: for every token and every time not before the sweep,
    [ValidateSession] accepts after the sweep exactly when it accepted
    before it. *)
Theorem sweep_preserves_validation :
  forall (now now' : Z) (t : string) (sm : SessionManager),
    now <= now' ->
    valid_at now' t (snd (cleanupExpiredSessions_tick now sm)) = valid_at now' t sm.
Proof.
  intros now now' t sm Hle.
  apply eq_true_iff_eq. rewrite !valid_at_lookup, cleanup_tick_lookup.
  destruct (sessions sm !! t) as [s|] eqn:Hs.
  - destruct (After now (Expires s)) eqn:Ha.
    + apply After_true in Ha. split.
      * intros (s' & Habs & _). discriminate Habs.
      * intros (s' & Heq & Hv). injection Heq as <-. lia.
    + reflexivity.
  - reflexivity.
Qed.

Lemma sweep_preserves_validation_witness :
  Hour <= Hour + 1 /\
  valid_at (Hour + 1) zeroToken (snd (cleanupExpiredSessions_tick Hour zeroStore))
  = valid_at (Hour + 1) zeroToken zeroStore.
Proof.
  assert (Hle : Hour <= Hour + 1) by lia.
  split; [exact Hle|].
  exact (sweep_preserves_validation Hour (Hour + 1) zeroToken zeroStore Hle).
Defined.

(** X6. After a sweep at time [now] the store holds exactly the sessions
    that had not expired at [now], with their expiry unchanged; a second
    sweep at the same time changes nothing. *)
Theorem sweep_keeps_unexpired :
  forall (now : Z) (sm : SessionManager),
    let swept := snd (cleanupExpiredSessions_tick now sm) in
    (forall t s, sessions swept !! t = Some s <->
                 (sessions sm !! t = Some s /\ now <= Expires s)) /\
    snd (cleanupExpiredSessions_tick now swept) = swept.
Proof.
  intros now sm swept.
  assert (Hchar : forall t s, sessions swept !! t = Some s <->
                              (sessions sm !! t = Some s /\ now <= Expires s)).
  { intros t s. subst swept. rewrite cleanup_tick_lookup.
    destruct (sessions sm !! t) as [s0|].
    - destruct (After now (Expires s0)) eqn:Ha.
      + apply After_true in Ha. split; [discriminate|].
        intros [Heq Hv]. injection Heq as <-. lia.
      + apply After_false in Ha. split.
        * intros Heq. injection Heq as <-. split; [reflexivity | exact Ha].
        * intros [Heq _]. exact Heq.
    - split; [discriminate | intros [Heq _]; discriminate Heq]. }
  split; [exact Hchar|].
  assert (Hmap : sessions (snd (cleanupExpiredSessions_tick now swept)) = sessions swept).
  { apply map_eq. intros t. rewrite cleanup_tick_lookup.
    destruct (sessions swept !! t) as [s|] eqn:Hs; [|reflexivity].
    apply Hchar in Hs. destruct Hs as [_ Hv].
    apply After_false in Hv. rewrite Hv. reflexivity. }
  destruct (cleanupExpiredSessions_tick now swept) as [u [m]] eqn:Hc.
  destruct swept as [m0]. simpl in *. subst m. reflexivity.
Qed.

(** X7. Creating or deleting a session leaves the answer of validation for
    every other token unchanged, at every time. *)
Theorem other_tokens_unaffected :
  forall (bytes : list byte) (t t' : string) (now now' : Z) (sm : SessionManager),
    t' <> EncodeToString bytes ->
    t' <> t ->
    fst (ValidateSession now' t' (snd (CreateSession (Ok bytes) now sm)))
    = fst (ValidateSession now' t' sm) /\
    fst (ValidateSession now' t' (snd (DeleteSession t sm)))
    = fst (ValidateSession now' t' sm).
Proof.
  intros bytes t t' now now' sm Hc Hd.
  rewrite !ValidateSession_unfold, CreateSession_with_entropy. cbn [fst snd sessions].
  split.
  - rewrite lookup_insert_ne by (intros Heq; apply Hc; symmetry; exact Heq). reflexivity.
  - unfold DeleteSession, modify. cbn [fst snd sessions].
    rewrite lookup_delete_ne by (intros Heq; apply Hd; symmetry; exact Heq). reflexivity.
Qed.

Lemma other_tokens_unaffected_witness :
  zeroToken <> EncodeToString (repeat xff 32) /\
  zeroToken <> "stale" /\
  fst (ValidateSession 5 zeroToken (snd (CreateSession (Ok (repeat xff 32)) 3 zeroStore)))
  = fst (ValidateSession 5 zeroToken zeroStore) /\
  fst (ValidateSession 5 zeroToken (snd (DeleteSession "stale" zeroStore)))
  = fst (ValidateSession 5 zeroToken zeroStore).
Proof.
  assert (Hc : zeroToken <> EncodeToString (repeat xff 32)) by (vm_compute; discriminate).
  assert (Hd : zeroToken <> "stale") by (vm_compute; discriminate).
  split; [exact Hc|]. split; [exact Hd|].
  exact (other_tokens_unaffected (repeat xff 32) "stale" zeroToken 3 5 zeroStore Hc Hd).
Defined.

(** ** Tunnel names from configuration files *)

Lemma chars_append : forall a b, chars (a ++ b) = (chars a ++ chars b)%list.
Proof.
  unfold chars. induction a as [|c a IH]; intros b; [reflexivity|].
  simpl. rewrite IH. reflexivity.
Qed.

Lemma text_chars : forall s, text (chars s) = s.
Proof. intros s. apply string_of_list_ascii_of_string. Qed.

Lemma chars_text : forall l, chars (text l) = l.
Proof. intros l. apply list_ascii_of_string_of_list_ascii. Qed.

Lemma text_app : forall l1 l2, text (l1 ++ l2)%list = text l1 ++ text l2.
Proof.
  unfold text. induction l1 as [|c l1 IH]; intros l2; [reflexivity|].
  simpl. rewrite IH. reflexivity.
Qed.

Lemma takeWhile_app_stop :
  forall (A : Type) (p : A -> bool) (l1 l2 : list A) (x : A),
    forallb p l1 = true -> p x = false ->
    takeWhile p (l1 ++ x :: l2)%list = l1.
Proof.
  intros A p l1 l2 x. induction l1 as [|a l1 IH]; intros Hall Hx; simpl.
  - rewrite Hx. reflexivity.
  - simpl in Hall. apply andb_true_iff in Hall. destruct Hall as [Ha Hall].
    rewrite Ha, (IH Hall Hx). reflexivity.
Qed.

Lemma substring_prefix_of_append :
  forall a b, String.substring 0 (String.length a) (a ++ b) = a.
Proof.
  induction a as [|c a IH]; intros b.
  - destruct b; reflexivity.
  - simpl. rewrite IH. reflexivity.
Qed.

Lemma length_append : forall a b, String.length (a ++ b) = (String.length a + String.length b)%nat.
Proof. induction a as [|c a IH]; intros b; [reflexivity|]. simpl. rewrite IH. reflexivity. Qed.

Lemma forallb_rev_true :
  forall (A : Type) (p : A -> bool) (l : list A),
    forallb p l = true -> forallb p (rev l) = true.
Proof.
  intros A p l H. rewrite forallb_forall in *. intros x Hx.
  apply H. apply in_rev. exact Hx.
Qed.

Lemma rev_confFile :
  forall dir name,
    rev (chars (confFile dir name))
    = ("f" :: "n" :: "o" :: "c" :: "." :: rev (chars name) ++ "/" :: rev (chars dir))%list%char.
Proof.
  intros dir name. unfold confFile.
  rewrite !chars_append, !rev_app_distr. simpl. rewrite <- !app_assoc. reflexivity.
Qed.

Lemma Ext_confFile : forall dir name, Ext (confFile dir name) = ".conf".
Proof. intros dir name. unfold Ext. rewrite rev_confFile. reflexivity. Qed.

Lemma Base_confFile :
  forall dir name, noSlash name = true -> Base (confFile dir name) = name ++ ".conf".
Proof.
  intros dir name Hname. unfold Base.
  assert (Hne : String.eqb (confFile dir name) "" = false).
  { unfold confFile. destruct dir; reflexivity. }
  rewrite Hne, rev_confFile. cbn [dropWhile isPathSeparator Ascii.eqb Bool.eqb].
  change ("f" :: "n" :: "o" :: "c" :: "." :: rev (chars name) ++ "/" :: rev (chars dir))%list%char
    with ((["f"; "n"; "o"; "c"; "."]%char ++ rev (chars name)) ++ "/"%char :: rev (chars dir))%list.
  rewrite takeWhile_app_stop.
  - rewrite rev_app_distr, rev_involutive, text_app, text_chars. simpl.
    destruct name; reflexivity.
  - rewrite forallb_app. simpl. apply forallb_rev_true. exact Hname.
  - reflexivity.
Qed.

Lemma configName_stem :
  forall dir name : string,
    noSlash name = true ->
    configName (confFile dir name) = name.
Proof.
  intros dir name Hname. unfold configName.
  rewrite Ext_confFile, (Base_confFile dir name Hname).
  unfold TrimSuffix, HasSuffix. rewrite chars_append, rev_app_distr. simpl.
  rewrite length_append. simpl.
  replace (String.length name + 5 - 5)%nat with (String.length name) by lia.
  replace (String.prefix "" (text (rev (chars name)))) with true
    by (destruct (text (rev (chars name))); reflexivity).
  apply substring_prefix_of_append.
Qed.

(** X8. For every directory and every name free of "/", the path
    [dir/name.conf] has base name [name.conf] and extension [.conf], and
    its tunnel name is [name], whatever dots the name itself contains; so
    different names in one directory give different tunnel names. *)
Theorem configName_of_conf_file :
  forall dir name : string,
    noSlash name = true ->
    Base (confFile dir name) = name ++ ".conf" /\
    Ext (confFile dir name) = ".conf" /\
    configName (confFile dir name) = name /\
    (forall other, noSlash other = true ->
       configName (confFile dir other) = configName (confFile dir name) -> other = name).
Proof.
  intros dir name Hname.
  split; [exact (Base_confFile dir name Hname)|].
  split; [exact (Ext_confFile dir name)|].
  split; [exact (configName_stem dir name Hname)|].
  intros other Hother Heq.
  rewrite (configName_stem dir name Hname), (configName_stem dir other Hother) in Heq.
  exact Heq.
Qed.

Lemma configName_of_conf_file_witness :
  noSlash "a.b" = true /\ configName (confFile "/etc/wireguard" "a.b") = "a.b".
Proof.
  split; [reflexivity|].
  exact (proj1 (proj2 (proj2 (configName_of_conf_file "/etc/wireguard" "a.b" eq_refl)))).
Defined.

Section ListingFiles.

Context {World : Type} (host : Host World).

(** X9. When the directory holds the configuration files of the names
    [names] (none containing "/"), [getAllConnections] returns exactly
    these names, in the order of the listing, and runs no command; files
    that are distinct therefore give names that are distinct. *)
Theorem getAllConnections_stems :
  forall (s : Sys World) (names : list string),
    Glob host confPattern (world s) = Ok (map (confFile "/etc/wireguard") names) ->
    forallb noSlash names = true ->
    getAllConnections host s = (Ok names, s) /\
    (List.NoDup (map (confFile "/etc/wireguard") names) -> List.NoDup names).
Proof.
  intros s names Hglob Hnames.
  assert (Hmap : map configName (map (confFile "/etc/wireguard") names) = names).
  { rewrite map_map. rewrite <- (map_id names) at 2. apply map_ext_in.
    intros n Hn. apply configName_stem.
    rewrite forallb_forall in Hnames. exact (Hnames n Hn). }
  split.
  - unfold getAllConnections, bind_ok, bind, glob. rewrite Hglob. unfold ret.
    rewrite Hmap. reflexivity.
  - intros Hnd. apply (NoDup_map_inv (confFile "/etc/wireguard")). exact Hnd.
Qed.

End ListingFiles.

Lemma getAllConnections_stems_witness :
  Glob SimHost.host confPattern (world (SimHost.boot SimHost.home_up))
  = Ok (map (confFile "/etc/wireguard") ["home"; "office"]) /\
  forallb noSlash ["home"; "office"] = true /\
  getAllConnections SimHost.host (SimHost.boot SimHost.home_up)
  = (Ok ["home"; "office"], SimHost.boot SimHost.home_up).
Proof.
  split; [reflexivity|]. split; [reflexivity|].
  exact (proj1 (getAllConnections_stems SimHost.host (SimHost.boot SimHost.home_up)
                  ["home"; "office"] eq_refl eq_refl)).
Defined.

(** ** The lines that name an active interface *)

Lemma takeWhile_dropWhile :
  forall (A : Type) (p : A -> bool) (l : list A),
    (takeWhile p l ++ dropWhile p l)%list = l.
Proof.
  intros A p. induction l as [|x l IH]; [reflexivity|]. simpl.
  destruct (p x); simpl; [rewrite IH|]; reflexivity.
Qed.

Lemma takeWhile_all :
  forall (A : Type) (p : A -> bool) (l : list A), forallb p (takeWhile p l) = true.
Proof.
  intros A p. induction l as [|x l IH]; [reflexivity|]. simpl.
  destruct (p x) eqn:Hx; simpl; [rewrite Hx, IH|]; reflexivity.
Qed.

Lemma takeWhile_app_all :
  forall (A : Type) (p : A -> bool) (l1 l2 : list A),
    forallb p l1 = true ->
    takeWhile p (l1 ++ l2)%list = (l1 ++ takeWhile p l2)%list /\
    dropWhile p (l1 ++ l2)%list = dropWhile p l2.
Proof.
  intros A p l1 l2. induction l1 as [|x l1 IH]; intros Hall; [split; reflexivity|].
  simpl in Hall. apply andb_true_iff in Hall. destruct Hall as [Hx Hall].
  destruct (IH Hall) as [Ht Hd]. simpl. rewrite Hx, Ht, Hd. split; reflexivity.
Qed.

Lemma substring_full : forall s, String.substring 0 (String.length s) s = s.
Proof. induction s as [|c s IH]; [reflexivity|]. simpl. rewrite IH. reflexivity. Qed.

Lemma string_drop_append :
  forall p s, string_drop (String.length p) (p ++ s) = s.
Proof.
  unfold string_drop. induction p as [|c p IH]; intros s.
  - simpl. rewrite Nat.sub_0_r. apply substring_full.
  - simpl. apply IH.
Qed.

Lemma HasPrefix_append :
  forall p s, HasPrefix s p = true <-> exists rest, s = p ++ rest.
Proof.
  unfold HasPrefix. induction p as [|c p IH]; intros s.
  - split; [intros _; exists s; reflexivity | intros _; destruct s; reflexivity].
  - destruct s as [|c' s]; simpl.
    + split; [discriminate | intros (rest & H); discriminate H].
    + destruct (ascii_dec c c') as [->|Hne].
      * rewrite IH. split; intros (rest & H); exists rest; [rewrite H; reflexivity|].
        injection H as H. exact H.
      * split; [discriminate|]. intros (rest & H). injection H as Hc _.
        exfalso. apply Hne. symmetry. exact Hc.
Qed.

Lemma text_injective : forall l1 l2, text l1 = text l2 -> l1 = l2.
Proof.
  intros l1 l2 H. rewrite <- (chars_text l1), <- (chars_text l2), H. reflexivity.
Qed.

Lemma LFfree_text : forall l, LFfree (text l) <-> noNewline l = true.
Proof. intros l. unfold LFfree. rewrite chars_text. reflexivity. Qed.

Lemma noNewline_app :
  forall l1 l2, noNewline (l1 ++ l2)%list = noNewline l1 && noNewline l2.
Proof. intros l1 l2. unfold noNewline. apply forallb_app. Qed.

Lemma spaces_within_takeWhile :
  forall (ws rest tail : list ascii),
    rest = (ws ++ tail)%list -> forallb reSpace ws = true ->
    (List.length ws <= List.length (takeWhile reSpace rest))%nat.
Proof.
  intros ws rest tail -> Hws.
  destruct (takeWhile_app_all _ reSpace ws tail Hws) as [Ht _].
  rewrite Ht, length_app. lia.
Qed.

(** The matcher on the characters that follow the literal. *)
Lemma interfaceRegex_group :
  forall rest : list ascii,
    interfaceRegex_FindStringSubmatch ("interface:" ++ text rest) =
    match groupOf rest with
    | Some g => ["interface:" ++ text rest; text g]
    | None => []
    end.
Proof.
  intros rest. unfold interfaceRegex_FindStringSubmatch, groupOf.
  assert (Hp : HasPrefix ("interface:" ++ text rest) "interface:" = true)
    by (apply HasPrefix_append; exists (text rest); reflexivity).
  rewrite Hp.
  change 10%nat with (String.length "interface:").
  rewrite string_drop_append, chars_text.
  destruct (takeWhile reSpace rest) as [|w ws]; [reflexivity|].
  destruct (dropWhile reSpace rest) as [|r0 r].
  - destruct (rev (w :: ws)) as [|c [|c2 rs]]; try reflexivity.
    destruct (negb (Ascii.eqb c LF)); reflexivity.
  - destruct (noNewline (r0 :: r)); reflexivity.
Qed.

Lemma snoc_cases :
  forall (A : Type) (l : list A), l = [] \/ exists pre x, l = (pre ++ [x])%list.
Proof.
  intros A l. destruct (rev l) as [|x rp] eqn:Hrev.
  - left. apply (f_equal (@rev A)) in Hrev. rewrite rev_involutive in Hrev. exact Hrev.
  - right. exists (rev rp), x. rewrite <- (rev_involutive l), Hrev. reflexivity.
Qed.

Lemma groupOf_sound :
  forall rest g,
    groupOf rest = Some g ->
    exists ws,
      interfaceRest rest ws g /\
      (forall ws' g', interfaceRest rest ws' g' -> (List.length ws' <= List.length ws)%nat).
Proof.
  intros rest g Hg. unfold groupOf in Hg.
  pose proof (takeWhile_dropWhile _ reSpace rest) as Hsplit.
  pose proof (takeWhile_all _ reSpace rest) as Hall.
  destruct (takeWhile reSpace rest) as [|w ws0] eqn:Htw; [discriminate Hg|].
  destruct (dropWhile reSpace rest) as [|r0 r] eqn:Hdw.
  - rewrite app_nil_r in Hsplit.
    destruct (snoc_cases _ (w :: ws0)) as [Habs|(pre & c & Hsnoc)]; [discriminate Habs|].
    rewrite Hsnoc in Hg, Hall, Hsplit. rewrite rev_app_distr in Hg. simpl in Hg.
    destruct (rev pre) as [|c2 rs] eqn:Hpre; [discriminate Hg|].
    destruct (negb (Ascii.eqb c LF)) eqn:Hc; [|discriminate Hg].
    injection Hg as <-.
    rewrite forallb_app in Hall. apply andb_true_iff in Hall. destruct Hall as [Hallp _].
    exists pre. split.
    + unfold interfaceRest. split; [symmetry; exact Hsplit|].
      split; [intros ->; discriminate Hpre|]. split; [exact Hallp|].
      split; [discriminate|]. unfold noNewline. simpl. rewrite Hc. reflexivity.
    + intros ws' g' (Heq & _ & _ & Hne & _).
      apply (f_equal (@List.length ascii)) in Heq.
      rewrite <- Hsplit, !length_app in Heq. simpl in Heq.
      destruct g'; [contradiction | simpl in Heq; lia].
  - destruct (noNewline (r0 :: r)) eqn:Hnl; [|discriminate Hg].
    injection Hg as <-.
    exists (w :: ws0). split.
    + unfold interfaceRest. split; [symmetry; exact Hsplit|].
      split; [discriminate|]. split; [exact Hall|]. split; [discriminate | exact Hnl].
    + intros ws' g' (Heq & _ & Hsp & _ & _).
      rewrite <- Htw. exact (spaces_within_takeWhile ws' rest g' Heq Hsp).
Qed.

Lemma groupOf_complete :
  forall rest ws g,
    interfaceRest rest ws g ->
    (forall ws' g', interfaceRest rest ws' g' -> (List.length ws' <= List.length ws)%nat) ->
    groupOf rest = Some g.
Proof.
  intros rest ws g (Heq & Hne & Hsp & Hg & Hlf) Hmax. unfold groupOf.
  destruct (takeWhile_app_all _ reSpace ws g Hsp) as [Ht Hd].
  rewrite Heq, Ht, Hd.
  pose proof (takeWhile_dropWhile _ reSpace g) as Hsplit.
  pose proof (takeWhile_all _ reSpace g) as Hall.
  destruct ws as [|w ws0]; [contradiction|]. cbn [app].
  destruct (dropWhile reSpace g) as [|r0 r] eqn:Hdw.
  - rewrite app_nil_r in Hsplit. rewrite Hsplit in *.
    destruct (snoc_cases _ g) as [Habs|(pre & c & Hsnoc)]; [contradiction|].
    assert (Hc : Ascii.eqb c LF = false).
    { rewrite Hsnoc, noNewline_app in Hlf. apply andb_true_iff in Hlf.
      destruct Hlf as [_ Hlf]. unfold noNewline in Hlf. simpl in Hlf.
      destruct (Ascii.eqb c LF); [discriminate Hlf | reflexivity]. }
    assert (Hpre : pre = []).
    { assert (Hil : interfaceRest rest ((w :: ws0) ++ pre)%list [c]).
      { unfold interfaceRest. split; [rewrite Heq, Hsnoc, <- app_assoc; reflexivity|].
        split; [discriminate|]. split.
        - rewrite forallb_app, Hsp. rewrite Hsnoc, forallb_app in Hall.
          apply andb_true_iff in Hall. destruct Hall as [Hall _]. rewrite Hall. reflexivity.
        - split; [discriminate|]. unfold noNewline. simpl. rewrite Hc. reflexivity. }
      specialize (Hmax _ _ Hil). rewrite length_app in Hmax.
      destruct pre; [reflexivity | simpl in Hmax; lia]. }
    subst pre. simpl in Hsnoc. subst g.
    change (w :: ws0 ++ [c])%list with ((w :: ws0) ++ [c])%list.
    rewrite rev_app_distr. simpl rev at 1. cbn [app].
    destruct (snoc_cases _ (w :: ws0)) as [Habs|(p2 & x & Hs2)]; [discriminate Habs|].
    rewrite Hs2, rev_app_distr. simpl. rewrite Hc. reflexivity.
  - assert (Htk : takeWhile reSpace g = []).
    { assert (Hil : interfaceRest rest ((w :: ws0) ++ takeWhile reSpace g)%list (r0 :: r)).
      { unfold interfaceRest. split.
        - rewrite Heq. rewrite <- Hsplit at 1. rewrite <- app_assoc. reflexivity.
        - split; [discriminate|]. split; [rewrite forallb_app, Hsp, Hall; reflexivity|].
          split; [discriminate|].
          rewrite <- Hsplit, noNewline_app in Hlf. apply andb_true_iff in Hlf. tauto. }
      specialize (Hmax _ _ Hil). rewrite length_app in Hmax.
      destruct (takeWhile reSpace g); [reflexivity | simpl in Hmax; lia]. }
    rewrite Htk in Hsplit. simpl in Hsplit. subst g.
    rewrite Hlf. reflexivity.
Qed.

Lemma interfaceLine_rest :
  forall rest ws name,
    interfaceLine ("interface:" ++ text rest) ws name <-> interfaceRest rest ws (chars name).
Proof.
  intros rest ws name. unfold interfaceLine, interfaceRest.
  assert (Heq : "interface:" ++ text rest = "interface:" ++ text ws ++ name
                <-> rest = (ws ++ chars name)%list).
  { split.
    - intros H. apply (f_equal chars) in H.
      rewrite !chars_append, !chars_text in H. apply app_inv_head in H. exact H.
    - intros ->. rewrite text_app, text_chars. reflexivity. }
  assert (Hne : name <> "" <-> chars name <> []).
  { destruct name; simpl; split; intros H; try contradiction; discriminate. }
  unfold LFfree. rewrite Heq, Hne. reflexivity.
Qed.

(** X10. [interfaceRegex.FindStringSubmatch] returns nothing or the whole
    string with one group; it returns the group [name] exactly for the
    strings made of "interface:", at least one white-space character, and
    the non-empty, line-feed-free [name], where the white space is the
    longest that leaves a name. *)
Theorem interfaceRegex_matches :
  forall s : string,
    (interfaceRegex_FindStringSubmatch s = [] \/
     exists name, interfaceRegex_FindStringSubmatch s = [s; name]) /\
    (forall name,
       interfaceRegex_FindStringSubmatch s = [s; name] <->
       exists ws,
         interfaceLine s ws name /\
         (forall ws' name', interfaceLine s ws' name' ->
            (List.length ws' <= List.length ws)%nat)).
Proof.
  intros s. destruct (HasPrefix s "interface:") eqn:Hp.
  - apply HasPrefix_append in Hp. destruct Hp as (rest0 & ->).
    rewrite <- (text_chars rest0). set (rest := chars rest0).
    rewrite interfaceRegex_group. split.
    + destruct (groupOf rest) as [g|]; [right; exists (text g) | left]; reflexivity.
    + intros name. split.
      * intros Hm. destruct (groupOf rest) as [g|] eqn:Hg; [|discriminate Hm].
        injection Hm as <-.
        destruct (groupOf_sound rest g Hg) as (ws & Hil & Hmax).
        exists ws. split.
        -- apply interfaceLine_rest. rewrite chars_text. exact Hil.
        -- intros ws' name' Hil'. apply interfaceLine_rest in Hil'.
           exact (Hmax ws' (chars name') Hil').
      * intros (ws & Hil & Hmax). apply interfaceLine_rest in Hil.
        assert (Hg : groupOf rest = Some (chars name)).
        { apply (groupOf_complete rest ws (chars name) Hil).
          intros ws' g' Hil'. apply (Hmax ws' (text g')).
          apply interfaceLine_rest. rewrite chars_text. exact Hil'. }
        rewrite Hg, text_chars. reflexivity.
  - assert (Hnone : interfaceRegex_FindStringSubmatch s = []).
    { unfold interfaceRegex_FindStringSubmatch. rewrite Hp. reflexivity. }
    rewrite Hnone. split; [left; reflexivity|].
    intros name. split; [discriminate|].
    intros (ws & (Heq & _) & _).
    assert (Hp' : HasPrefix s "interface:" = true)
      by (apply HasPrefix_append; exists (text ws ++ name); exact Heq).
    congruence.
Qed.

Example interfaceRegex_home :
  interfaceRegex_FindStringSubmatch "interface: home" = ["interface: home"; "home"].
Proof. reflexivity. Qed.

Example interfaceRegex_no_space :
  interfaceRegex_FindStringSubmatch "interface:home" = [].
Proof. reflexivity. Qed.

(** ** The toggle on every host *)

Section ToggleInGeneral.

Context {World : Type} (host : Host World).

Lemma stopLoop_prefix_ok :
  forall (pre rest : list WireGuardConnection) (acc outs : list byte)
         (w0 w1 : World) (log : list (list string)),
    deactivations host (map Name pre) w0 = Some (outs, w1) ->
    stopLoop host (pre ++ rest) acc {| world := w0; invocations := log |}
    = stopLoop host rest (acc ++ outs)%list
        {| world := w1; invocations := (log ++ map wg_quick_down (map Name pre))%list |}.
Proof.
  induction pre as [|c pre IH]; intros rest acc outs w0 w1 log Hd; simpl in Hd.
  - injection Hd as <- <-. simpl. rewrite !app_nil_r. reflexivity.
  - destruct (run host StdoutAndStderr (wg_quick_down (Name c)) w0) as [[o [e|]] wa] eqn:Hrun;
      [discriminate Hd|].
    destruct (deactivations host (map Name pre) wa) as [[os wb]|] eqn:Hrest;
      [|discriminate Hd].
    injection Hd as <- <-.
    cbn [app stopLoop map]. unfold bind at 1.
    rewrite (exec_run host _ _ _ log _ _ Hrun). cbn [snd fst].
    rewrite (IH rest _ os wa wb _ Hrest), <- !app_assoc. reflexivity.
Qed.

(** X11. [stopActiveConnections] stops at the first deactivation that
    fails: the connections before it are deactivated in order, the error
    of the failing command is returned without any output, and no later
    connection is touched. *)
Theorem stopActiveConnections_first_failure :
  forall (pre rest : list WireGuardConnection) (c : WireGuardConnection)
         (outs o : list byte) (err : error) (w0 w1 w2 : World) (log : list (list string)),
    deactivations host (map Name pre) w0 = Some (outs, w1) ->
    run host StdoutAndStderr (wg_quick_down (Name c)) w1 = ((o, Some err), w2) ->
    stopActiveConnections host (pre ++ c :: rest) {| world := w0; invocations := log |}
    = (Err err,
       {| world := w2;
          invocations := (log ++ map wg_quick_down (map Name pre)
                              ++ [wg_quick_down (Name c)])%list |}).
Proof.
  intros pre rest c outs o err w0 w1 w2 log Hpre Hfail.
  unfold stopActiveConnections.
  rewrite (stopLoop_prefix_ok pre (c :: rest) [] outs w0 w1 log Hpre).
  rewrite (stopLoop_first_failure host c rest w1 w2 _ _ o err Hfail), <- app_assoc.
  reflexivity.
Qed.

(** X12. When a deactivation fails during a toggle, the toggle returns
    that error and never activates the target: after the two status
    probes only the deactivations up to the failing one are run. *)
Theorem toggle_deactivation_failed :
  forall (w : World) (out : list byte) (files : list string),
    run host StdoutOnly wg_show w = ((out, None), w) ->
    Glob host confPattern w = Ok files ->
    forall (log : list (list string)) (name c : string) (pre rest : list string)
           (outs o : list byte) (err : error) (w1 w2 : World),
      In name (map configName files) ->
      List.filter (slices_Contains (activeNames out)) (map configName files)
      = (pre ++ c :: rest)%list ->
      deactivations host pre w = Some (outs, w1) ->
      run host StdoutAndStderr (wg_quick_down c) w1 = ((o, Some err), w2) ->
      ToggleConnection host name {| world := w; invocations := log |}
      = (Err err,
         {| world := w2;
            invocations := (log ++ [wg_show; wg_show] ++ map wg_quick_down pre
                                ++ [wg_quick_down c])%list |}).
Proof.
  intros w out files Hprobe Hglob log name c pre rest outs o err w1 w2
         Hname Hfilter Hpre Hfail.
  unfold ToggleConnection, bind_ok, bind.
  rewrite (GetConnections_stable host w out files Hprobe Hglob).
  rewrite (getConnection_configured host w out files Hprobe Hglob _ name Hname).
  rewrite Filter_connectionsOf, Hfilter.
  unfold stopActiveConnections, connectionsOf. rewrite map_app. cbn [map].
  fold (connectionsOf (activeNames out) pre). fold (connectionsOf (activeNames out) rest).
  assert (Hpre' : deactivations host (map Name (connectionsOf (activeNames out) pre)) w
                  = Some (outs, w1))
    by (rewrite connectionsOf_names; exact Hpre).
  rewrite (stopLoop_prefix_ok _ _ [] outs w w1 _ Hpre'), connectionsOf_names.
  rewrite (stopLoop_first_failure host
             {| Name := c; Active := slices_Contains (activeNames out) c |}
             _ w1 w2 _ _ o err Hfail).
  cbn [Name].
  unfold ret. rewrite <- !app_assoc. reflexivity.
Qed.

Lemma In_firstn :
  forall (A : Type) (k : nat) (l : list A) (x : A), In x (firstn k l) -> In x l.
Proof.
  intros A. induction k as [|k IH]; intros l x Hx; [contradiction|].
  destruct l as [|y l]; [contradiction|]. simpl in Hx.
  destruct Hx as [->|Hx]; [left; reflexivity | right; exact (IH l x Hx)].
Qed.

(** How each step extends the invocation log, on any host. *)

Lemma showStatus_log :
  forall s : Sys World,
    invocations (snd (showStatus host s)) = (invocations s ++ [wg_show])%list.
Proof.
  intros s. unfold showStatus, bind, exec.
  destruct (run host StdoutOnly wg_show (world s)) as [[o [e|]] w1]; reflexivity.
Qed.

Lemma GetConnections_log :
  forall s : Sys World,
    invocations (snd (GetConnections host s)) = (invocations s ++ [wg_show])%list.
Proof.
  intros s. unfold GetConnections, getActiveConnections, getAllConnections, bind_ok, bind.
  pose proof (showStatus_log s) as Hlog.
  destruct (showStatus host s) as [[status|e] s1]; simpl in Hlog; [|exact Hlog].
  unfold glob, ret. destruct (Glob host confPattern (world s1)); exact Hlog.
Qed.

Lemma getConnection_log :
  forall (name : string) (s : Sys World),
    invocations (snd (getConnection host name s)) = (invocations s ++ [wg_show])%list /\
    (forall c, fst (getConnection host name s) = Ok c -> Name c = name).
Proof.
  intros name s. unfold getConnection, bind_ok, bind.
  pose proof (GetConnections_log s) as Hlog.
  destruct (GetConnections host s) as [[conns|e] s1]; simpl in Hlog.
  - destruct (Find conns (fun dev => String.eqb (Name dev) name)) as [c|] eqn:Hfind; simpl.
    + split; [exact Hlog|]. intros c' Hc. injection Hc as <-.
      unfold Find in Hfind. apply find_some in Hfind. destruct Hfind as [_ Heq].
      apply String.eqb_eq. exact Heq.
    + split; [exact Hlog | discriminate].
  - simpl. split; [exact Hlog | discriminate].
Qed.

Lemma stopLoop_log :
  forall (acs : list WireGuardConnection) (acc : list byte) (s : Sys World),
    exists k : nat,
      invocations (snd (stopLoop host acs acc s))
      = (invocations s ++ map wg_quick_down (map Name (firstn k acs)))%list.
Proof.
  induction acs as [|c acs IH]; intros acc s.
  - exists 0%nat. simpl. rewrite app_nil_r. reflexivity.
  - cbn [stopLoop]. unfold bind, exec.
    destruct (run host StdoutAndStderr (wg_quick_down (Name c)) (world s)) as [[o [e|]] w1].
    + exists 1%nat. reflexivity.
    + cbn [snd fst].
      destruct (IH (acc ++ o)%list
                  {| world := w1;
                     invocations := (invocations s ++ [wg_quick_down (Name c)])%list |})
        as (k & Hk).
      exists (S k). rewrite Hk. cbn [invocations firstn map]. rewrite <- app_assoc.
      reflexivity.
Qed.

Lemma startConnection_log :
  forall (c : WireGuardConnection) (s : Sys World),
    invocations (snd (startConnection host c s)) = invocations s \/
    invocations (snd (startConnection host c s))
    = (invocations s ++ [wg_quick_up (Name c)])%list.
Proof.
  intros c s. unfold startConnection. destruct (Active c); [left; reflexivity|].
  right. unfold bind, exec.
  destruct (run host StdoutAndStderr (wg_quick_up (Name c)) (world s)) as [[o [e|]] w1];
    reflexivity.
Qed.

(** X13. On every host and for every outcome of every command,
    [ToggleConnection name] runs one or two status probes, then only
    [wg-quick down] commands, each for a connection that its first listing
    showed active, then at most one [wg-quick up], which is for [name] and
    is the last command run. *)
Theorem toggle_commands :
  forall (name : string) (s : Sys World),
    exists (probes : list (list string)) (downs : list string) (ups : list (list string)),
      invocations (snd (ToggleConnection host name s))
      = (invocations s ++ probes ++ map wg_quick_down downs ++ ups)%list /\
      (probes = [wg_show] \/ probes = [wg_show; wg_show]) /\
      (ups = [] \/ ups = [wg_quick_up name]) /\
      (forall d, In d downs ->
         exists conns, fst (GetConnections host s) = Ok conns /\
                       In {| Name := d; Active := true |} conns).
Proof.
  intros name s. unfold ToggleConnection, bind_ok, bind, ret.
  pose proof (GetConnections_log s) as Hlog1.
  destruct (GetConnections host s) as [[conns|e1] s1] eqn:Hgc; cbn [fst snd] in *.
  2:{ exists [wg_show], [], []. cbn [map app]. rewrite Hlog1.
      split; [reflexivity|]. split; [left; reflexivity|]. split; [left; reflexivity|].
      intros d []. }
  destruct (getConnection_log name s1) as [Hlog2 Hname].
  destruct (getConnection host name s1) as [[c|e2] s2] eqn:Hconn; cbn [fst snd] in *.
  2:{ exists [wg_show; wg_show], [], []. cbn [map app]. rewrite Hlog2, Hlog1, <- app_assoc.
      split; [reflexivity|]. split; [right; reflexivity|]. split; [left; reflexivity|].
      intros d []. }
  specialize (Hname c eq_refl).
  unfold stopActiveConnections.
  destruct (stopLoop_log (Filter conns (fun i => Active i)) [] s2) as (k & Hlog3).
  set (downs := map Name (firstn k (Filter conns (fun i => Active i)))) in *.
  assert (Hdowns : forall d, In d downs ->
            exists conns0, Ok conns = Ok conns0 /\ In {| Name := d; Active := true |} conns0).
  { intros d Hd. exists conns. split; [reflexivity|].
    subst downs. apply in_map_iff in Hd. destruct Hd as (x & <- & Hx).
    apply In_firstn in Hx. unfold Filter in Hx. apply filter_In in Hx.
    destruct Hx as [Hin Hact]. destruct x as [n a]. simpl in *. subst a. exact Hin. }
  destruct (stopLoop host (Filter conns (fun i => Active i)) [] s2) as [[output|e3] s3];
    cbn [fst snd] in *.
  2:{ exists [wg_show; wg_show], downs, []. rewrite Hlog3, Hlog2, Hlog1, <- !app_assoc.
      rewrite app_nil_r.
      split; [reflexivity|]. split; [right; reflexivity|]. split; [left; reflexivity|].
      exact Hdowns. }
  destruct (startConnection_log c s3) as [Hlog4|Hlog4];
    destruct (startConnection host c s3) as [[startOutput|e4] s4]; cbn [fst snd] in *.
  - exists [wg_show; wg_show], downs, []. rewrite Hlog4, Hlog3, Hlog2, Hlog1, <- !app_assoc.
    rewrite app_nil_r.
    split; [reflexivity|]. split; [right; reflexivity|]. split; [left; reflexivity|].
    exact Hdowns.
  - exists [wg_show; wg_show], downs, []. rewrite Hlog4, Hlog3, Hlog2, Hlog1, <- !app_assoc.
    rewrite app_nil_r.
    split; [reflexivity|]. split; [right; reflexivity|]. split; [left; reflexivity|].
    exact Hdowns.
  - exists [wg_show; wg_show], downs, [wg_quick_up name].
    rewrite Hlog4, Hlog3, Hlog2, Hlog1, Hname, <- !app_assoc.
    split; [reflexivity|]. split; [right; reflexivity|]. split; [right; reflexivity|].
    exact Hdowns.
  - exists [wg_show; wg_show], downs, [wg_quick_up name].
    rewrite Hlog4, Hlog3, Hlog2, Hlog1, Hname, <- !app_assoc.
    split; [reflexivity|]. split; [right; reflexivity|]. split; [right; reflexivity|].
    exact Hdowns.
Qed.

End ToggleInGeneral.

(** The properties above on sample hosts. *)

Lemma stopActiveConnections_first_failure_witness :
  deactivations SimHost.host (map Name [{| Name := "home"; Active := true |}]) three_tunnels
  = Some (SimHost.downOutput "home",
          snd (SimHost.wgQuickDown "home" three_tunnels)) /\
  stopActiveConnections SimHost.host
    ([{| Name := "home"; Active := true |}]
       ++ {| Name := "ghost"; Active := true |} :: [{| Name := "office"; Active := true |}])
    (SimHost.boot three_tunnels)
  = (Err SimHost.exitStatus1,
     {| world := snd (SimHost.wgQuickDown "home" three_tunnels);
        invocations := [wg_quick_down "home"; wg_quick_down "ghost"] |}).
Proof.
  assert (Hpre : deactivations SimHost.host (map Name [{| Name := "home"; Active := true |}])
                   three_tunnels
                 = Some (SimHost.downOutput "home",
                         snd (SimHost.wgQuickDown "home" three_tunnels)))
    by (vm_compute; reflexivity).
  split; [exact Hpre|].
  exact (stopActiveConnections_first_failure SimHost.host
           [{| Name := "home"; Active := true |}] [{| Name := "office"; Active := true |}]
           {| Name := "ghost"; Active := true |} _ _ _ three_tunnels _ _ [] Hpre eq_refl).
Defined.

Lemma toggle_deactivation_failed_witness :
  run StuckHost.host StdoutOnly wg_show tt = ((StuckHost.showText, None), tt) /\
  List.filter (slices_Contains (activeNames StuckHost.showText))
    (map configName ["/etc/wireguard/home.conf"; "/etc/wireguard/office.conf"])
  = ([] ++ "home" :: [])%list /\
  ToggleConnection StuckHost.host "office" {| world := tt; invocations := [] |}
  = (Err (External "exit status 1"),
     {| world := tt; invocations := [wg_show; wg_show; wg_quick_down "home"] |}).
Proof.
  assert (Hfilter : List.filter (slices_Contains (activeNames StuckHost.showText))
                      (map configName
                         ["/etc/wireguard/home.conf"; "/etc/wireguard/office.conf"])
                    = ([] ++ "home" :: [])%list) by (vm_compute; reflexivity).
  assert (Hname : In "office"
                    (map configName
                       ["/etc/wireguard/home.conf"; "/etc/wireguard/office.conf"]))
    by (right; left; reflexivity).
  split; [reflexivity|]. split; [exact Hfilter|].
  exact (toggle_deactivation_failed StuckHost.host tt StuckHost.showText
           ["/etc/wireguard/home.conf"; "/etc/wireguard/office.conf"]
           eq_refl eq_refl [] "office" "home" [] [] [] StuckHost.downText
           (External "exit status 1") tt tt Hname Hfilter eq_refl eq_refl).
Defined.

Lemma active_three_tunnels :
  List.filter (slices_Contains (activeNames (SimHost.probe three_tunnels)))
    (map configName (SimHost.confs three_tunnels))
  = ["home"; "office"].
Proof. vm_compute. reflexivity. Qed.

Lemma toggle_switch_witness :
  In "lab" (map configName (SimHost.confs three_tunnels)) /\
  slices_Contains (activeNames (SimHost.probe three_tunnels)) "lab" = false /\
  deactivations SimHost.host ["home"; "office"] three_tunnels
  = Some ((SimHost.downOutput "home" ++ SimHost.downOutput "office")%list,
          snd (SimHost.wgQuickDown "office" (snd (SimHost.wgQuickDown "home" three_tunnels)))) /\
  ToggleConnection SimHost.host "lab" (SimHost.boot three_tunnels)
  = (Ok ((SimHost.downOutput "home" ++ SimHost.downOutput "office")
           ++ SimHost.upOutput "lab")%list,
     {| world :=
          snd (SimHost.wgQuickUp "lab"
                 (snd (SimHost.wgQuickDown "office"
                         (snd (SimHost.wgQuickDown "home" three_tunnels)))));
        invocations := [wg_show; wg_show; wg_quick_down "home"; wg_quick_down "office";
                        wg_quick_up "lab"] |}).
Proof.
  assert (Hname : In "lab" (map configName (SimHost.confs three_tunnels)))
    by (vm_compute; tauto).
  assert (Hoff : slices_Contains (activeNames (SimHost.probe three_tunnels)) "lab" = false)
    by (vm_compute; reflexivity).
  assert (Hdowns : deactivations SimHost.host ["home"; "office"] three_tunnels
                   = Some ((SimHost.downOutput "home" ++ SimHost.downOutput "office")%list,
                           snd (SimHost.wgQuickDown "office"
                                  (snd (SimHost.wgQuickDown "home" three_tunnels)))))
    by (vm_compute; reflexivity).
  split; [exact Hname|]. split; [exact Hoff|]. split; [exact Hdowns|].
  pose proof (toggle_switch SimHost.host three_tunnels (SimHost.probe three_tunnels)
                (SimHost.confs three_tunnels) eq_refl eq_refl [] "lab") as H.
  rewrite active_three_tunnels in H.
  exact (H _ _ _ (SimHost.upOutput "lab") Hname Hoff Hdowns eq_refl).
Defined.

Lemma toggle_activation_failed_witness :
  In "lab" (map configName (SimHost.confs lab_broken)) /\
  slices_Contains (activeNames (SimHost.probe lab_broken)) "lab" = false /\
  run SimHost.host StdoutAndStderr (wg_quick_up "lab")
    (snd (SimHost.wgQuickDown "office" (snd (SimHost.wgQuickDown "home" lab_broken))))
  = ((SimHost.upFailure "lab", Some SimHost.exitStatus1),
     snd (SimHost.wgQuickDown "office" (snd (SimHost.wgQuickDown "home" lab_broken)))) /\
  ToggleConnection SimHost.host "lab" (SimHost.boot lab_broken)
  = (Err SimHost.exitStatus1,
     {| world := snd (SimHost.wgQuickDown "office" (snd (SimHost.wgQuickDown "home" lab_broken)));
        invocations := [wg_show; wg_show; wg_quick_down "home"; wg_quick_down "office";
                        wg_quick_up "lab"] |}).
Proof.
  assert (Hname : In "lab" (map configName (SimHost.confs lab_broken)))
    by (vm_compute; tauto).
  assert (Hoff : slices_Contains (activeNames (SimHost.probe lab_broken)) "lab" = false)
    by (vm_compute; reflexivity).
  assert (Hfilter : List.filter (slices_Contains (activeNames (SimHost.probe lab_broken)))
                      (map configName (SimHost.confs lab_broken))
                    = ["home"; "office"]) by (vm_compute; reflexivity).
  assert (Hdowns : deactivations SimHost.host ["home"; "office"] lab_broken
                   = Some ((SimHost.downOutput "home" ++ SimHost.downOutput "office")%list,
                           snd (SimHost.wgQuickDown "office"
                                  (snd (SimHost.wgQuickDown "home" lab_broken)))))
    by (vm_compute; reflexivity).
  split; [exact Hname|]. split; [exact Hoff|]. split; [reflexivity|].
  pose proof (toggle_activation_failed SimHost.host lab_broken (SimHost.probe lab_broken)
                (SimHost.confs lab_broken) eq_refl eq_refl [] "lab") as H.
  rewrite Hfilter in H.
  exact (H _ _ _ (SimHost.upFailure "lab") SimHost.exitStatus1 Hname Hoff Hdowns eq_refl).
Defined.

Lemma toggle_probe_failed_witness :
  run SimHost.host StdoutOnly wg_show SimHost.probe_denied
  = (([], Some SimHost.exitStatus1), SimHost.probe_denied) /\
  ToggleConnection SimHost.host "home" (SimHost.boot SimHost.probe_denied)
  = (Err (Wrapped "failed to execute wg show" SimHost.exitStatus1),
     {| world := SimHost.probe_denied; invocations := [wg_show] |}).
Proof.
  split; [reflexivity|].
  exact (toggle_probe_failed SimHost.host "home" SimHost.probe_denied SimHost.probe_denied
           [] [] SimHost.exitStatus1 eq_refl).
Defined.

(** ** Read operations on every host *)

Section Reads.

Context {World : Type} (host : Host World).

(** X17. Whatever the host answers, [GetStatus], [GetConnections] and
    [getConnection] run exactly one command, the status probe, and leave
    the host in the world the probe left: none of them runs [wg-quick]. *)
Theorem reads_run_one_probe :
  forall (s : Sys World) (name : string),
    let after := {| world := snd (run host StdoutOnly wg_show (world s));
                    invocations := (invocations s ++ [wg_show])%list |} in
    snd (GetStatus host s) = after /\
    snd (GetConnections host s) = after /\
    snd (getConnection host name s) = after.
Proof.
  intros s name after. subst after.
  unfold getConnection, GetStatus, GetConnections, getActiveConnections, getAllConnections,
    showStatus, bind_ok, bind, exec, glob, ret.
  destruct (run host StdoutOnly wg_show (world s)) as [[o [e|]] w1]; cbn [fst snd world].
  - repeat split.
  - destruct (Glob host confPattern w1) as [files|e]; cbn [fst snd].
    + destruct (Find _ _); repeat split.
    + repeat split.
Qed.

(** X18. [GetConnections] fails with the wrapped probe error when the
    probe fails (the directory is then not consulted), with the error of
    the listing, as it is, when only the listing fails, and otherwise
    succeeds with one state per configuration file; [GetStatus] does not
    depend on the listing. *)
Theorem GetConnections_outcome :
  forall s : Sys World,
    fst (GetConnections host s) =
      match run host StdoutOnly wg_show (world s) with
      | ((_, Some err), _) => Err (Wrapped "failed to execute wg show" err)
      | ((out, None), w1) =>
          match Glob host confPattern w1 with
          | Err e => Err e
          | Ok files => Ok (connectionsOf (activeNames out) (map configName files))
          end
      end /\
    fst (GetStatus host s) =
      match run host StdoutOnly wg_show (world s) with
      | ((_, Some err), _) => Err (Wrapped "failed to execute wg show" err)
      | ((out, None), _) => Ok (Join (statusLines out) (String LF ""))
      end.
Proof.
  intros s.
  unfold GetStatus, GetConnections, getActiveConnections, getAllConnections,
    showStatus, bind_ok, bind, exec, glob, ret.
  destruct (run host StdoutOnly wg_show (world s)) as [[o [e|]] w1]; cbn [fst snd world].
  - split; reflexivity.
  - destruct (Glob host confPattern w1) as [files|e]; cbn [fst snd].
    + rewrite fold_left_append_map. split; reflexivity.
    + split; reflexivity.
Qed.

End Reads.

(** ** The HTTP handlers *)

Lemma ValidatePassword_requires_shape :
  forall password hash,
    ValidatePassword password hash = true -> String.length hash = 64%nat.
Proof.
  intros password hash Hv. apply ValidatePassword_iff in Hv. subst hash.
  unfold GeneratePasswordHash. rewrite EncodeToString_length, Sum256_length. reflexivity.
Qed.

Section HandlerFacts.

Context {World : Type} (host : Host World) (config : Config).

Lemma onSessions_ValidateSession :
  forall (now : Z) (value : string) (st : Server World),
    onSessions (ValidateSession now value) st
    = (fst (ValidateSession now value (sessionManager st)), st).
Proof.
  intros now value st. unfold onSessions. rewrite ValidateSession_unfold.
  destruct st as [sm sys]. reflexivity.
Qed.

Lemma requireAuth_valid :
  forall (next : @Handler World) (req : Request) (amb : Ambient) (st : Server World)
         (value : string),
    SessionCookie req = Some value ->
    valid_at (Now amb) value (sessionManager st) = true ->
    requireAuth next req amb st = next req amb st.
Proof.
  intros next req amb st value Hc Hv. unfold requireAuth. rewrite Hc. unfold bind.
  rewrite onSessions_ValidateSession. unfold valid_at in Hv. rewrite Hv. reflexivity.
Qed.

Lemma requireAuth_invalid :
  forall (next : @Handler World) (req : Request) (amb : Ambient) (st : Server World)
         (value : string),
    SessionCookie req = Some value ->
    valid_at (Now amb) value (sessionManager st) = false ->
    requireAuth next req amb st = (Redirect "/login", st).
Proof.
  intros next req amb st value Hc Hv. unfold requireAuth. rewrite Hc. unfold bind.
  rewrite onSessions_ValidateSession. unfold valid_at in Hv. rewrite Hv. reflexivity.
Qed.

(** X19. [requireAuth] lets a request through exactly when it carries a
    session cookie that [ValidateSession] accepts at that moment: then the
    wrapped handler is run on the unchanged state.  Without a cookie, or
    with an unknown or expired one, the answer is a 303 redirect to /login,
    the wrapped handler is not run and nothing changes, whatever the
    handler is. *)
Theorem requireAuth_gate :
  forall (next : @Handler World) (req : Request) (amb : Ambient) (st : Server World),
    (forall value,
       SessionCookie req = Some value ->
       valid_at (Now amb) value (sessionManager st) = true ->
       requireAuth next req amb st = next req amb st) /\
    ((SessionCookie req = None \/
      exists value, SessionCookie req = Some value /\
                    valid_at (Now amb) value (sessionManager st) = false) ->
     requireAuth next req amb st = (Redirect "/login", st)).
Proof.
  intros next req amb st. unfold requireAuth. split.
  - intros value Hc Hv. rewrite Hc. unfold bind.
    rewrite onSessions_ValidateSession. unfold valid_at in Hv. rewrite Hv. reflexivity.
  - intros [Hnone|(value & Hc & Hv)].
    + rewrite Hnone. reflexivity.
    + rewrite Hc. unfold bind.
      rewrite onSessions_ValidateSession. unfold valid_at in Hv. rewrite Hv. reflexivity.
Qed.


(** X21. A login attempt with a wrong password changes nothing and sets
    no cookie: no session is created, no command is run, and the answer is
    the login page with "Wrong password", never a redirect. *)
Theorem login_wrong_password :
  forall (req : Request) (amb : Ambient) (st : Server World),
    Method req = "POST" ->
    ValidatePassword (FormPassword req) (PasswordHash config) = false ->
    snd (handleLogin config req amb st) = st /\
    SetCookie (fst (handleLogin config req amb st)) = None /\
    Location (fst (handleLogin config req amb st)) = None /\
    (TemplateError amb = None ->
     fst (handleLogin config req amb st)
     = plain 200 (Page "login.html" [("Error", "Wrong password")]) []).
Proof.
  intros req amb st Hm Hpw. unfold handleLogin. rewrite Hm.
  cbn [String.eqb Ascii.eqb Bool.eqb andb].
  rewrite Hpw. unfold ret, renderTemplate.
  cbn [fst snd]. destruct (TemplateError amb) as [e|]; cbn [plain SetCookie Location].
  - repeat split. intros Habs. discriminate Habs.
  - repeat split.
Qed.

(** X22. A POST to /logout with a session cookie deletes that session: the
    answer redirects to /login and clears the cookie, no command is run,
    and afterwards every request carrying the old cookie is redirected to
    /login at any time, whatever handler it asks for.  A logout request
    that is not a POST is refused with 405 and deletes nothing. *)
Theorem logout_closes_session :
  forall (req : Request) (amb : Ambient) (st : Server World),
    (forall value,
       Method req = "POST" ->
       SessionCookie req = Some value ->
       let st1 := snd (handleLogout req amb st) in
       fst (handleLogout req amb st)
       = {| Status := 303; Location := Some "/login";
            SetCookie := Some {| CookieName := "session_id"; CookieValue := "";
                                 CookieExpires := None; MaxAge := -1;
                                 HttpOnly := true; SameSiteStrict := true |};
            Body := NoPayload; Logs := [] |} /\
       system st1 = system st /\
       (forall (next : @Handler World) (req' : Request) (amb' : Ambient),
          SessionCookie req' = Some value ->
          requireAuth next req' amb' st1 = (Redirect "/login", st1))) /\
    (Method req <> "POST" ->
     handleLogout req amb st = (plain 405 (PlainText "Method not allowed") [], st)).
Proof.
  intros req amb st. split.
  - intros value Hm Hc st1. subst st1.
    unfold handleLogout. rewrite Hm, Hc. cbn [String.eqb Ascii.eqb Bool.eqb andb negb].
    unfold bind, onSessions, DeleteSession, modify, ret. cbn [fst snd system].
    split; [reflexivity|]. split; [reflexivity|].
    intros next req' amb' Hc'.
    apply (requireAuth_invalid next req' amb' _ value Hc').
    destruct (valid_at (Now amb') value _) eqn:Hv; [|reflexivity].
    apply valid_at_lookup in Hv. destruct Hv as (s & Hs & _).
    cbn [sessionManager sessions] in Hs. rewrite lookup_delete_eq in Hs. discriminate Hs.
  - intros Hm. unfold handleLogout.
    destruct (String.eqb_spec (Method req) "POST") as [Heq|_]; [contradiction|].
    reflexivity.
Qed.

(** X23. The toggle endpoint refuses a request that is not a POST (405),
    whose body does not decode (400, "Invalid JSON"), or whose name is
    blank after trimming (400, "Connection name is required"); in all
    three cases no command is run and nothing changes. *)
Theorem toggle_request_refused :
  forall (req : Request) (amb : Ambient) (st : Server World),
    (Method req <> "POST" ->
     handleToggleRequest host req amb st
     = (sendErrorResponse "Method not allowed" 405 [], st)) /\
    (Method req = "POST" -> BodyName req = None ->
     handleToggleRequest host req amb st
     = (sendErrorResponse "Invalid JSON" 400 [], st)) /\
    (forall name, Method req = "POST" -> BodyName req = Some name ->
       TrimSpace name = "" ->
       handleToggleRequest host req amb st
       = (sendErrorResponse "Connection name is required" 400 [], st)).
Proof.
  intros req amb st. unfold handleToggleRequest. split; [|split].
  - intros Hm. destruct (String.eqb_spec (Method req) "POST") as [Heq|_]; [contradiction|].
    reflexivity.
  - intros Hm Hb. rewrite Hm, Hb. reflexivity.
  - intros name Hm Hb Hblank. rewrite Hm, Hb.
    cbn [String.eqb Ascii.eqb Bool.eqb andb negb].
    unfold bind, onSystem, handleToggleAPI. rewrite Hblank.
    cbn [String.eqb]. unfold ret. destruct st as [sm sys]. reflexivity.
Qed.

(** X24. The connections and status endpoints never run [wg-quick] and
    never touch the sessions: whatever the request and the host, they run
    at most the one status probe. *)
Theorem read_endpoints_probe_only :
  forall (req : Request) (amb : Ambient) (st : Server World),
    let quiet (st1 : Server World) :=
      sessionManager st1 = sessionManager st /\
      (invocations (system st1) = invocations (system st) \/
       invocations (system st1) = (invocations (system st) ++ [wg_show])%list) in
    quiet (snd (handleConnectionsAPI host req amb st)) /\
    quiet (snd (handleStatusAPI host req amb st)).
Proof.
  intros req amb st quiet. subst quiet. cbv beta.
  unfold handleConnectionsAPI, handleStatusAPI.
  destruct (negb (String.eqb (Method req) "GET")).
  - unfold ret. cbn [snd]. repeat split; left; reflexivity.
  - unfold bind, onSystem.
    pose proof (GetConnections_log host (system st)) as Hc.
    pose proof (showStatus_log host (system st)) as Hs.
    split.
    + destruct (GetConnections host (system st)) as [[conns|e] sys1]; cbn [snd] in Hc;
        unfold ret; cbn [snd sessionManager system]; split; try reflexivity; right; exact Hc.
    + unfold GetStatus, bind_ok, bind.
      destruct (showStatus host (system st)) as [[out|e] sys1]; cbn [snd] in Hs;
        unfold ret; cbn [snd sessionManager system]; split; try reflexivity; right; exact Hs.
Qed.

End HandlerFacts.

(** X25. With the default configuration, which stores no password hash, no
    request to /login ever opens a session, whatever its method and
    password: the state is unchanged and no cookie is set. *)
Theorem default_config_admits_nobody :
  forall (World : Type) (req : Request) (amb : Ambient) (st : Server World),
    snd (handleLogin DefaultConfig req amb st) = st /\
    SetCookie (fst (handleLogin DefaultConfig req amb st)) = None.
Proof.
  intros World req amb st. unfold handleLogin.
  assert (Hpw : ValidatePassword (FormPassword req) (PasswordHash DefaultConfig) = false).
  { destruct (ValidatePassword (FormPassword req) (PasswordHash DefaultConfig)) eqn:Hv;
      [|reflexivity].
    apply ValidatePassword_requires_shape in Hv. discriminate Hv. }
  rewrite Hpw. unfold ret, renderTemplate.
  destruct (String.eqb (Method req) "GET"); [|destruct (String.eqb (Method req) "POST")];
    destruct (TemplateError amb); split; reflexivity.
Qed.

(** The handler properties on a sample server. *)

Lemma sample_password_accepted :
  ValidatePassword (FormPassword (loginRequest "hunter2")) (PasswordHash sampleConfig) = true.
Proof. vm_compute. reflexivity. Qed.

Lemma sample_password_rejected :
  ValidatePassword (FormPassword (loginRequest "letmein")) (PasswordHash sampleConfig) = false.
Proof. vm_compute. reflexivity. Qed.

Lemma zeroToken_valid_at_5 : valid_at 5 zeroToken (sessionManager openServer) = true.
Proof.
  apply valid_at_lookup. exists {| Expires := Hour |}.
  split; [exact zeroStore_lookup | unfold Hour; simpl; lia].
Qed.

Lemma zeroToken_expired_later :
  valid_at (Hour + 1) zeroToken (sessionManager openServer) = false.
Proof.
  destruct (valid_at (Hour + 1) zeroToken (sessionManager openServer)) eqn:Hv; [|reflexivity].
  apply valid_at_lookup in Hv. destruct Hv as (s & Hs & Hle).
  change (sessions (sessionManager openServer) !! zeroToken) with (sessions zeroStore !! zeroToken) in Hs.
  rewrite zeroStore_lookup in Hs. injection Hs as <-. simpl in Hle. lia.
Qed.

Lemma requireAuth_gate_witness :
  (SessionCookie (toggleRequest "POST" (Some zeroToken) (Some "office")) = Some zeroToken /\
   valid_at (Now (ambientAt 5 (Ok []))) zeroToken (sessionManager openServer) = true /\
   requireAuth (handleToggleRequest SimHost.host)
     (toggleRequest "POST" (Some zeroToken) (Some "office")) (ambientAt 5 (Ok [])) openServer
   = handleToggleRequest SimHost.host
       (toggleRequest "POST" (Some zeroToken) (Some "office")) (ambientAt 5 (Ok [])) openServer) /\
  (valid_at (Now (ambientAt (Hour + 1) (Ok []))) zeroToken (sessionManager openServer) = false /\
   requireAuth (handleToggleRequest SimHost.host)
     (toggleRequest "POST" (Some zeroToken) (Some "office"))
     (ambientAt (Hour + 1) (Ok [])) openServer
   = (Redirect "/login", openServer)).
Proof.
  split.
  - split; [reflexivity|]. split; [exact zeroToken_valid_at_5|].
    exact (proj1 (requireAuth_gate (handleToggleRequest SimHost.host)
                    (toggleRequest "POST" (Some zeroToken) (Some "office"))
                    (ambientAt 5 (Ok [])) openServer)
             zeroToken eq_refl zeroToken_valid_at_5).
  - split; [exact zeroToken_expired_later|].
    apply (proj2 (requireAuth_gate (handleToggleRequest SimHost.host)
                    (toggleRequest "POST" (Some zeroToken) (Some "office"))
                    (ambientAt (Hour + 1) (Ok [])) openServer)).
    right. exists zeroToken. split; [reflexivity | exact zeroToken_expired_later].
Defined.


Lemma login_wrong_password_witness :
  Method (loginRequest "letmein") = "POST" /\
  ValidatePassword (FormPassword (loginRequest "letmein")) (PasswordHash sampleConfig) = false /\
  TemplateError (ambientAt 0 (Ok (repeat x00 32))) = None /\
  snd (handleLogin sampleConfig (loginRequest "letmein") (ambientAt 0 (Ok (repeat x00 32)))
         freshServer)
  = freshServer /\
  fst (handleLogin sampleConfig (loginRequest "letmein") (ambientAt 0 (Ok (repeat x00 32)))
         freshServer)
  = plain 200 (Page "login.html" [("Error", "Wrong password")]) [].
Proof.
  split; [reflexivity|]. split; [exact sample_password_rejected|]. split; [reflexivity|].
  destruct (login_wrong_password sampleConfig (loginRequest "letmein")
              (ambientAt 0 (Ok (repeat x00 32))) freshServer eq_refl
              sample_password_rejected) as (Hst & _ & _ & Hpage).
  split; [exact Hst | exact (Hpage eq_refl)].
Defined.

Lemma logout_closes_session_witness :
  Method (logoutRequest "POST" (Some zeroToken)) = "POST" /\
  SessionCookie (logoutRequest "POST" (Some zeroToken)) = Some zeroToken /\
  system (snd (handleLogout (logoutRequest "POST" (Some zeroToken)) (ambientAt 5 (Ok []))
                 openServer))
  = system openServer /\
  Method (logoutRequest "GET" (Some zeroToken)) <> "POST" /\
  handleLogout (logoutRequest "GET" (Some zeroToken)) (ambientAt 5 (Ok [])) openServer
  = (plain 405 (PlainText "Method not allowed") [], openServer).
Proof.
  assert (Hm : Method (logoutRequest "GET" (Some zeroToken)) <> "POST")
    by (simpl; discriminate).
  split; [reflexivity|]. split; [reflexivity|].
  split.
  - exact (proj1 (proj2 (proj1 (logout_closes_session (logoutRequest "POST" (Some zeroToken))
                                  (ambientAt 5 (Ok [])) openServer)
                           zeroToken eq_refl eq_refl))).
  - split; [exact Hm|].
    exact (proj2 (logout_closes_session (logoutRequest "GET" (Some zeroToken))
                    (ambientAt 5 (Ok [])) openServer) Hm).
Defined.

Lemma toggle_request_refused_witness :
  TrimSpace "   " = "" /\
  handleToggleRequest SimHost.host (toggleRequest "POST" None (Some "   "))
    (ambientAt 5 (Ok [])) openServer
  = (sendErrorResponse "Connection name is required" 400 [], openServer) /\
  Method (toggleRequest "GET" None None) <> "POST" /\
  handleToggleRequest SimHost.host (toggleRequest "GET" None None)
    (ambientAt 5 (Ok [])) openServer
  = (sendErrorResponse "Method not allowed" 405 [], openServer).
Proof.
  assert (Hblank : TrimSpace "   " = "") by (vm_compute; reflexivity).
  assert (Hm : Method (toggleRequest "GET" None None) <> "POST") by (simpl; discriminate).
  split; [exact Hblank|].
  split.
  - exact (proj2 (proj2 (toggle_request_refused SimHost.host
                           (toggleRequest "POST" None (Some "   "))
                           (ambientAt 5 (Ok [])) openServer))
             "   " eq_refl eq_refl Hblank).
  - split; [exact Hm|].
    exact (proj1 (toggle_request_refused SimHost.host (toggleRequest "GET" None None)
                    (ambientAt 5 (Ok [])) openServer) Hm).
Defined.

(** ** What the session store can come to hold *)

Lemma runStore_sessions_issued :
  forall (ops : list StoreOp) (t : string) (s : Session),
    sessions (runStore ops) !! t = Some s ->
    exists bytes created,
      In (OpCreate (Ok bytes) created) ops /\
      t = EncodeToString bytes /\ Expires s = created + Hour.
Proof.
  unfold runStore. induction ops as [|op ops IH] using rev_ind; intros t s Hs.
  - simpl in Hs. rewrite lookup_empty in Hs. discriminate Hs.
  - rewrite fold_left_app in Hs. cbn [fold_left] in Hs.
    set (sm := fold_left stepStore ops NewSessionManager) in *.
    assert (Hold : sessions sm !! t = Some s ->
              exists bytes created,
                In (OpCreate (Ok bytes) created) (ops ++ [op]) /\
                t = EncodeToString bytes /\ Expires s = created + Hour).
    { intros Hsm. destruct (IH t s Hsm) as (bytes & created & Hin & Ht & He).
      exists bytes, created. split; [apply in_or_app; left; exact Hin|]. split; assumption. }
    destruct op as [[bytes|e] now|now t'|t'|now]; cbn [stepStore] in Hs.
    + rewrite CreateSession_with_entropy in Hs. cbn [snd sessions] in Hs.
      destruct (decide (EncodeToString bytes = t)) as [Heq|Hne].
      * subst t. rewrite lookup_insert_eq in Hs. injection Hs as <-.
        exists bytes, now. split; [apply in_or_app; right; left; reflexivity|].
        split; reflexivity.
      * rewrite lookup_insert_ne in Hs by exact Hne. exact (Hold Hs).
    + exact (Hold Hs).
    + rewrite ValidateSession_unfold in Hs. exact (Hold Hs).
    + cbn [DeleteSession modify snd sessions] in Hs.
      destruct (decide (t' = t)) as [Heq|Hne].
      * subst t'. rewrite lookup_delete_eq in Hs. discriminate Hs.
      * rewrite lookup_delete_ne in Hs by exact Hne. exact (Hold Hs).
    + rewrite cleanup_tick_lookup in Hs.
      destruct (sessions sm !! t) as [s0|] eqn:Hsm; [|discriminate Hs].
      destruct (After now (Expires s0)); [discriminate Hs|].
      injection Hs as <-. exact (Hold eq_refl).
Qed.

(** X26. Whatever sequence of creations, validations, deletions and sweeps
    a store has gone through since [NewSessionManager], [ValidateSession]
    accepts a token only if a successful [CreateSession] of that sequence
    issued it, and only up to one hour after the time of that creation. *)
Theorem only_issued_tokens_validate :
  forall (ops : list StoreOp) (now : Z) (t : string),
    valid_at now t (runStore ops) = true ->
    exists bytes created,
      In (OpCreate (Ok bytes) created) ops /\
      t = EncodeToString bytes /\
      now <= created + Hour.
Proof.
  intros ops now t Hv. apply valid_at_lookup in Hv. destruct Hv as (s & Hs & Hle).
  destruct (runStore_sessions_issued ops t s Hs) as (bytes & created & Hin & Ht & He).
  exists bytes, created. split; [exact Hin|]. split; [exact Ht | lia].
Qed.

Lemma only_issued_tokens_validate_witness :
  valid_at 5 zeroToken (runStore [OpCreate (Ok (repeat x00 32)) 0; OpValidate 1 zeroToken])
  = true /\
  exists bytes created,
    In (OpCreate (Ok bytes) created)
       [OpCreate (Ok (repeat x00 32)) 0; OpValidate 1 zeroToken] /\
    zeroToken = EncodeToString bytes /\ 5 <= created + Hour.
Proof.
  assert (Hv : valid_at 5 zeroToken
                 (runStore [OpCreate (Ok (repeat x00 32)) 0; OpValidate 1 zeroToken])
               = true).
  { unfold runStore. cbn [fold_left stepStore]. rewrite CreateSession_zero. cbn [snd].
    rewrite ValidateSession_unfold. cbn [snd].
    apply valid_at_lookup. exists {| Expires := Hour |}.
    split; [exact zeroStore_lookup | unfold Hour; simpl; lia]. }
  split; [exact Hv|].
  exact (only_issued_tokens_validate _ 5 zeroToken Hv).
Defined.

(** ** The empty status text *)

Lemma labelled_nonempty : forall line, labelled line <> "".
Proof.
  intros line. unfold labelled.
  destruct (Contains line "interface"); [|destruct (Contains line "latest handshake")];
    simpl; discriminate.
Qed.

Lemma Join_empty :
  forall (lines : list string) (sep : string),
    (forall l, In l lines -> l <> "") -> Join lines sep = "" -> lines = [].
Proof.
  intros lines sep Hne Hj. destruct lines as [|x rest]; [reflexivity|].
  exfalso. apply (Hne x (or_introl eq_refl)).
  unfold Join in Hj. destruct rest as [|y rest]; [exact Hj|].
  simpl in Hj. destruct x; [reflexivity | discriminate Hj].
Qed.

Section EmptyStatus.

Context {World : Type} (host : Host World).

(** X27. When the probe succeeds, [GetStatus] returns the empty text
    exactly when no line of the probe output, once trimmed, contains
    "interface", "latest handshake" or "transfer"; otherwise the text is
    not empty. *)
Theorem GetStatus_empty_iff :
  forall (s : Sys World) (out : list byte) (w1 : World),
    run host StdoutOnly wg_show (world s) = ((out, None), w1) ->
    (fst (GetStatus host s) = Ok "" <->
     forall line, In line (Split (string_of_list_byte out) LF) ->
                  relevant (TrimSpace line) = false).
Proof.
  intros s out w1 Hrun.
  assert (Hget : fst (GetStatus host s) = Ok (Join (statusLines out) (String LF ""))).
  { unfold GetStatus, showStatus, bind_ok, bind, exec, ret. rewrite Hrun. reflexivity. }
  rewrite Hget, statusLines_summary. unfold summary_spec, extracted.
  set (kept := List.filter relevant (map TrimSpace (Split (string_of_list_byte out) LF))).
  split.
  - intros Hj. injection Hj as Hj.
    apply Join_empty in Hj.
    + apply app_eq_nil in Hj. destruct Hj as [Hm _].
      apply map_eq_nil in Hm.
      intros line Hline.
      destruct (relevant (TrimSpace line)) eqn:Hr; [|reflexivity].
      assert (Hin : In (TrimSpace line) kept).
      { subst kept. apply filter_In. split; [apply in_map; exact Hline | exact Hr]. }
      rewrite Hm in Hin. contradiction.
    + intros l Hl. apply in_app_or in Hl. destruct Hl as [Hl|Hl].
      * apply in_map_iff in Hl. destruct Hl as (x & <- & _). apply labelled_nonempty.
      * destruct (Nat.eqb _ 0); [contradiction|].
        destruct Hl as [<-|[]]. discriminate.
  - intros Hnone.
    assert (Hk : kept = []).
    { subst kept. destruct (List.filter relevant _) as [|x rest] eqn:Hf; [reflexivity|].
      assert (Hin : In x (List.filter relevant
                            (map TrimSpace (Split (string_of_list_byte out) LF))))
        by (rewrite Hf; left; reflexivity).
      apply filter_In in Hin. destruct Hin as [Hin Hr].
      apply in_map_iff in Hin. destruct Hin as (line & <- & Hline).
      rewrite (Hnone line Hline) in Hr. discriminate Hr. }
    rewrite Hk. reflexivity.
Qed.

End EmptyStatus.

Lemma GetStatus_empty_iff_witness :
  run SimHost.host StdoutOnly wg_show (world (SimHost.boot SimHost.all_down))
  = ((SimHost.probe SimHost.all_down, None), SimHost.all_down) /\
  (fst (GetStatus SimHost.host (SimHost.boot SimHost.all_down)) = Ok "" <->
   forall line, In line (Split (string_of_list_byte (SimHost.probe SimHost.all_down)) LF) ->
                relevant (TrimSpace line) = false).
Proof.
  split; [reflexivity|].
  exact (GetStatus_empty_iff SimHost.host (SimHost.boot SimHost.all_down)
           (SimHost.probe SimHost.all_down) SimHost.all_down eq_refl).
Defined.
